(** * versionplot: device-count time series per OS version

    A shallow embedding of [get_date] and [load_counts] of
    [versionplot.py].  The library calls they make
    ([datetime.strptime], [semver.match], [numpy.where], the [xlrd]
    sheet accessors) are modelled, in a module per library, by what the
    libraries do on the values this script hands them.

    Conventions.
    - A Python [str] is a [string]: the sequence of its code points,
      restricted to code points below 256.  On that range the regular
      expression class [\d] is exactly the ten ASCII digits.
    - A Python [int] is a [Z] (no wrap-around).
    - A raised exception is the [Raise] branch of [result]; the
      constructor of [exn] records the exception class and, for
      [ValueError], which library check raised it.
    - The cells the script reads have the types of the fleet score
      layout: column 0 holds text, column 2 holds a whole number, so
      that [int(cell.value)] is that number. *)

From Stdlib Require Import ZArith String Ascii List Bool Lia.
From stdpp Require Import base decidable option list gmap strings fin_maps.

Local Open Scope string_scope.
Local Open Scope Z_scope.

(** ** Exceptions and the error monad *)

Module Py.

(** Which check a [ValueError] comes from. *)
Inductive value_error :=
| does_not_match_format      (* _strptime: regex did not match *)
| unconverted_data_remains   (* _strptime: match ended early *)
| date_out_of_range          (* datetime.date(y, m, d) *)
| not_valid_SemVer           (* semver.parse *)
| not_a_match_expression.    (* semver.match: unknown operator *)

Inductive exn :=
| ValueError (why : value_error)
| KeyError (key : string)
| IndexError
| XLRDError (name : string).

Inductive result (A : Type) :=
| Ok (a : A)
| Raise (e : exn).
Global Arguments Ok {A} a.
Global Arguments Raise {A} e.

Definition bind {A B} (c : result A) (k : A → result B) : result B :=
  match c with
  | Ok a => k a
  | Raise e => Raise e
  end.

Global Instance result_ret : MRet result := λ A a, Ok a.
Global Instance result_bind : MBind result := λ A B k c, bind c k.

(** A [for] loop whose body may raise: the first exception ends it. *)
Fixpoint for_each {A S} (body : S → A → result S) (xs : list A) (s : S)
  : result S :=
  match xs with
  | [] => Ok s
  | x :: xs' => s' ← body s x; for_each body xs' s'
  end.

Definition is_Ok {A} (c : result A) : bool :=
  match c with
  | Ok _ => true
  | Raise _ => false
  end.

Definition succeeds {A} (c : result A) : Prop := ∃ a, c = Ok a.
Definition fails {A} (c : result A) : Prop := ∃ e, c = Raise e.

(** The spec's error kinds, as classes of Python exceptions. *)
Definition is_FormatError (e : exn) : Prop :=
  match e with
  | ValueError does_not_match_format
  | ValueError unconverted_data_remains
  | ValueError date_out_of_range => True
  | _ => False
  end.

End Py.
Import Py.

(** ** Strings *)

Module Str.

Definition is_digit (c : ascii) : bool :=
  let n := N_of_ascii c in (48 <=? n)%N && (n <=? 57)%N.

Definition digit_val (c : ascii) : Z := Z.of_N (N_of_ascii c) - 48.

Definition in_range (lo hi c : ascii) : bool :=
  (N_of_ascii lo <=? N_of_ascii c)%N && (N_of_ascii c <=? N_of_ascii hi)%N.

Fixpoint string_forallb (p : ascii → bool) (s : string) : bool :=
  match s with
  | EmptyString => true
  | String c s' => p c && string_forallb p s'
  end.

(** The longest prefix of [s] whose characters satisfy [p], and the rest. *)
Fixpoint span (p : ascii → bool) (s : string) : string * string :=
  match s with
  | EmptyString => (EmptyString, EmptyString)
  | String c s' =>
      if p c then let '(a, b) := span p s' in (String c a, b)
      else (EmptyString, s)
  end.

(** [int(text)] on a string of ASCII digits. *)
Definition int (text : string) : Z :=
  (fix go (acc : Z) (s : string) : Z :=
     match s with
     | EmptyString => acc
     | String c s' => go (10 * acc + digit_val c) s'
     end) 0 text.

End Str.
Import Str.

(** ** [datetime] *)

Module Datetime.

Record date := Date { year : Z; month : Z; day : Z }.

Global Instance date_eq_dec : EqDecision date.
Proof. solve_decision. Defined.

Definition is_leap (y : Z) : bool :=
  (y mod 4 =? 0) && (negb (y mod 100 =? 0) || (y mod 400 =? 0)).

Definition days_in_month (y m : Z) : Z :=
  if m =? 2 then (if is_leap y then 29 else 28)
  else if (m =? 4) || (m =? 6) || (m =? 9) || (m =? 11) then 30
  else 31.

(** The range check of the [date(year, month, day)] constructor
    (MINYEAR = 1, MAXYEAR = 9999). *)
Definition valid_date (y m d : Z) : bool :=
  (1 <=? y) && (y <=? 9999) && (1 <=? m) && (m <=? 12)
  && (1 <=? d) && (d <=? days_in_month y m).

(** The regular expression [_strptime] compiles "%Y%m%d" to is
    "(?P<Y>\d\d\d\d)(?P<m>1[0-2]|0[1-9]|[1-9])(?P<d>3[0-1]|[1-2]\d|0[1-9]|[1-9]| [1-9])".
    Each group below lists its matches at the head of [s] in the
    order a backtracking matcher tries them, as (value, rest). *)

Definition re_Y (s : string) : list (Z * string) :=
  match s with
  | String a (String b (String c (String d rest))) =>
      if is_digit a && is_digit b && is_digit c && is_digit d
      then [(1000 * digit_val a + 100 * digit_val b
             + 10 * digit_val c + digit_val d, rest)]
      else []
  | _ => []
  end.

(** One character followed by one character of a class: a two-character
    alternative such as [1[0-2]]. *)
Definition two (p q : ascii → bool) (s : string) : list (Z * string) :=
  match s with
  | String a (String b rest) =>
      if p a && q b then [(10 * digit_val a + digit_val b, rest)] else []
  | _ => []
  end.

Definition one (p : ascii → bool) (s : string) : list (Z * string) :=
  match s with
  | String a rest => if p a then [(digit_val a, rest)] else []
  | _ => []
  end.

(** [ [1-9]]: a space, then a digit; the value is that of the digit
    ([int] skips the blank). *)
Definition blank_one (p : ascii → bool) (s : string) : list (Z * string) :=
  match s with
  | String a (String b rest) =>
      if Ascii.eqb a " " && p b then [(digit_val b, rest)] else []
  | _ => []
  end.

Definition re_m (s : string) : list (Z * string) :=
  two (Ascii.eqb "1") (in_range "0" "2") s
  ++ two (Ascii.eqb "0") (in_range "1" "9") s
  ++ one (in_range "1" "9") s.

Definition re_d (s : string) : list (Z * string) :=
  two (Ascii.eqb "3") (in_range "0" "1") s
  ++ two (in_range "1" "2") is_digit s
  ++ two (Ascii.eqb "0") (in_range "1" "9") s
  ++ one (in_range "1" "9") s
  ++ blank_one (in_range "1" "9") s.

(** All matches of the whole expression, in backtracking order;
    [re.match] returns the first. *)
Definition re_Ymd (s : string) : list (Z * Z * Z * string) :=
  '(y, s1) ← re_Y s;
  '(m, s2) ← re_m s1;
  '(d, s3) ← re_d s2;
  [(y, m, d, s3)].

(** [datetime.strptime(s, "%Y%m%d").date()] *)
Definition strptime_Ymd (s : string) : result date :=
  match re_Ymd s with
  | [] => Raise (ValueError does_not_match_format)
  | (y, m, d, rest) :: _ =>
      if negb (String.eqb rest "")
      then Raise (ValueError unconverted_data_remains)
      else if valid_date y m d then Ok (Date y m d)
      else Raise (ValueError date_out_of_range)
  end.

End Datetime.
Import Datetime.

(** ** [get_date] *)

Definition get_date (datestring : string) : result date :=
strptime_Ymd datestring.

(** ** [semver] (python-semver 2.x, the module-level functions) *)

Module Semver.

Record version_info := VersionInfo {
  major : Z;
  minor : Z;
  patch : Z;
  prerelease : option string;
  build : option string
}.

(** [text.split('.')] *)
Fixpoint split_dot (text : string) : list string :=
  match text with
  | EmptyString => [EmptyString]
  | String c s' =>
      if Ascii.eqb c "." then EmptyString :: split_dot s'
      else match split_dot s' with
           | p :: ps => String c p :: ps
           | [] => [String c EmptyString]
           end
  end.

(** [[0-9A-Za-z-]] *)
Definition is_ident_char (c : ascii) : bool :=
  is_digit c || in_range "A" "Z" c || in_range "a" "z" c || Ascii.eqb c "-".

(** The number group (a lone 0, or [1-9] followed by any number of
    [0-9]) in a position where the next thing the
    expression can match is not a digit: the whole run of digits is the
    number, and it has no leading zero. *)
Definition numeric (s : string) : option (Z * string) :=
  let '(ds, rest) := span is_digit s in
  match ds with
  | EmptyString => None
  | String c ds' =>
      if Ascii.eqb c "0" && negb (String.eqb ds' "") then None
      else Some (int ds, rest)
  end.

Definition dot (s : string) : option string :=
  match s with
  | String c rest => if Ascii.eqb c "." then Some rest else None
  | EmptyString => None
  end.

(** A prerelease identifier: a lone 0, or one of [1-9A-Za-z-] followed
    by any number of [0-9A-Za-z-]. *)
Definition is_prerelease_ident (s : string) : bool :=
  match s with
  | EmptyString => false
  | String c s' =>
      if Ascii.eqb c "0" then String.eqb s' ""
      else is_ident_char c && string_forallb is_ident_char s'
  end.

(** [[0-9A-Za-z-]+] *)
Definition is_build_ident (s : string) : bool :=
  negb (String.eqb s "") && string_forallb is_ident_char s.

(** What follows the patch number:
    an optional hyphen with dot-separated prerelease identifiers, then
    an optional plus sign with dot-separated build identifiers, up to
    the end of the string. *)
Definition build_part (s : string) : option (option string) :=
  match s with
  | EmptyString => Some None
  | String c b =>
      if Ascii.eqb c "+" && forallb is_build_ident (split_dot b)
      then Some (Some b) else None
  end.

Definition tail (s : string) : option (option string * option string) :=
  match s with
  | String c r =>
      if Ascii.eqb c "-" then
        let '(pre, r') := span (λ x, negb (Ascii.eqb x "+")) r in
        if forallb is_prerelease_ident (split_dot pre)
        then b ← build_part r'; Some (Some pre, b)
        else None
      else b ← build_part s; Some (None, b)
  | EmptyString => Some (None, None)
  end.

(** The expression ends in [$], which without [re.MULTILINE] also
    matches just before a newline that is the last character. *)
Fixpoint chomp (s : string) : string :=
  match s with
  | EmptyString => EmptyString
  | String c EmptyString => if Ascii.eqb c "010" then EmptyString else s
  | String c s' => String c (chomp s')
  end.

Definition parse (version : string) : result version_info :=
  let matched :=
    '(maj, s1) ← numeric (chomp version);
    s2 ← dot s1;
    '(min, s3) ← numeric s2;
    s4 ← dot s3;
    '(pat, s5) ← numeric s4;
    '(pre, bld) ← tail s5;
    Some (VersionInfo maj min pat pre bld) in
  match matched with
  | Some v => Ok v
  | None => Raise (ValueError not_valid_SemVer)
  end.

(** [cmp(a, b) = (a > b) - (a < b)] *)
Definition cmp (a b : Z) : Z :=
  (if b <? a then 1 else 0) - (if a <? b then 1 else 0).

Definition cmp_str (a b : string) : Z :=
  match String.compare a b with
  | Lt => -1
  | Eq => 0
  | Gt => 1
  end.

(** A prerelease identifier after [convert]: an [int] or a [str]. *)
Inductive tag :=
| TInt (n : Z)
| TStr (s : string).

Definition convert (text : string) : tag :=
  if negb (String.eqb text "") && string_forallb is_digit text
  then TInt (int text) else TStr text.

Definition cmp_prerelease_tag (a b : tag) : Z :=
  match a, b with
  | TInt x, TInt y => cmp x y
  | TInt _, TStr _ => -1
  | TStr _, TInt _ => 1
  | TStr x, TStr y => cmp_str x y
  end.

(** The [for ... in zip(a_parts, b_parts): ... else: ...] loop. *)
Fixpoint zip_cmp (a_parts b_parts : list tag) (otherwise : Z) : Z :=
  match a_parts, b_parts with
  | sub_a :: a', sub_b :: b' =>
      let cmp_result := cmp_prerelease_tag sub_a sub_b in
      if cmp_result =? 0 then zip_cmp a' b' otherwise else cmp_result
  | _, _ => otherwise
  end.

Definition nat_cmp (a b : option string) : Z :=
  let a := default EmptyString a in
  let b := default EmptyString b in
  zip_cmp (convert <$> split_dot a) (convert <$> split_dot b)
    (cmp (Z.of_nat (String.length a)) (Z.of_nat (String.length b))).

(** Python's [not rc] for [rc] a string or [None]. *)
Definition falsy (rc : option string) : bool :=
  match rc with
  | None => true
  | Some s => String.eqb s ""
  end.

Definition compare_by_keys (d1 d2 : version_info) : Z :=
  let v := cmp (major d1) (major d2) in
  if negb (v =? 0) then v else
  let v := cmp (minor d1) (minor d2) in
  if negb (v =? 0) then v else
  let v := cmp (patch d1) (patch d2) in
  if negb (v =? 0) then v else
  let rc1 := prerelease d1 in
  let rc2 := prerelease d2 in
  let rccmp := nat_cmp rc1 rc2 in
  if rccmp =? 0 then 0
  else if falsy rc1 then 1
  else if falsy rc2 then -1
  else rccmp.

Definition compare (ver1 ver2 : string) : result Z :=
  v1 ← parse ver1;
  v2 ← parse ver2;
  Ok (compare_by_keys v1 v2).

(** [semver.match(version, match_expr)] *)
Definition match_ (version match_expr : string) : result bool :=
  let prefix := substring 0 2 match_expr in
  '(possibilities, match_version) ←
    (if bool_decide (prefix = ">=") then Ok ([0; 1], substring 2 (String.length match_expr) match_expr)
     else if bool_decide (prefix = "<=") then Ok ([-1; 0], substring 2 (String.length match_expr) match_expr)
     else if bool_decide (prefix = "==") then Ok ([0], substring 2 (String.length match_expr) match_expr)
     else if bool_decide (prefix = "!=") then Ok ([-1; 1], substring 2 (String.length match_expr) match_expr)
     else if bool_decide (substring 0 1 prefix = ">") then Ok ([1], substring 1 (String.length match_expr) match_expr)
     else if bool_decide (substring 0 1 prefix = "<") then Ok ([-1], substring 1 (String.length match_expr) match_expr)
     else Raise (ValueError not_a_match_expression));
  cmp_res ← compare version match_version;
  Ok (bool_decide (cmp_res ∈ possibilities)).

End Semver.

(** ** [numpy]: the (K, 2) object arrays of the script *)

Module Numpy.

(** One row [[date, count]] per date sheet. *)
Abbreviation series := (list (date * Z)).

(** [numpy.where(arr == d)[0][0]]: the comparison is elementwise; only
    the date column can equal a date, so the row indices [where] returns
    are those of the rows dated [d], ascending.  Taking element 0 of an
    empty index array raises [IndexError]. *)
Fixpoint where_first (arr : series) (d : date) : result nat :=
  match arr with
  | [] => Raise IndexError
  | (d', _) :: arr' =>
      if bool_decide (d' = d) then Ok 0%nat
      else i ← where_first arr' d; Ok (S i)
  end.

(** [arr[dayindex, 1] += count] *)
Definition add_count (arr : series) (dayindex : nat) (count : Z) : series :=
  alter (λ e, (e.1, e.2 + count)) dayindex arr.

End Numpy.
Import Numpy.

(** ** [xlrd] *)

Module Xlrd.

(** The cells of one row that the script reads. *)
Record row := Row {
  col0 : string;   (* cell(row_idx, 0).value *)
  col2 : Z         (* int(cell(row_idx, 2).value) *)
}.

Record sheet := Sheet {
  name : string;
  rows : list row
}.

Abbreviation workbook := (list sheet).

Definition sheet_names (wb : workbook) : list string := name <$> wb.

(** The first sheet of that name; [XLRDError] when there is none. *)
Definition sheet_by_name (wb : workbook) (n : string) : result sheet :=
  match find (λ sh, bool_decide (name sh = n)) wb with
  | Some sh => Ok sh
  | None => Raise (XLRDError n)
  end.

(** The rows at indices [range(start, sheet.nrows)]. *)
Definition rows_from (start : nat) (sh : sheet) : list row :=
  drop start (rows sh).

End Xlrd.
Import Xlrd.

(** ** [load_counts] *)

Definition MC_VERSION : string := ">=2.12.0".

Definition extra_versions : list string :=
  ["1.x"; "2.x"; "mc-capable"; "non-mc-capable"].

(** Lines 41-46: one row [[get_date(name), 0]] per date sheet. *)
Definition empty_dates (date_sheets : list string) : result series :=
  for_each (λ dates date_sheet_name,
              d ← get_date date_sheet_name; Ok (dates ++ [(d, 0)])%list)
           date_sheets [].

(** Lines 49-57: a copy of [dates] under every catalog version, then
    under every extra version; assigning to a key that is already there
    replaces its value. *)
Definition known_versions (dates : series) (ossheet : sheet)
  : gmap string series :=
  let oslist :=
    foldl (λ oslist r, <[col0 r := dates]> oslist) ∅ (rows_from 1 ossheet) in
  foldl (λ oslist ver, <[ver := dates]> oslist) oslist extra_versions.

(** [dayindex = numpy.where(oslist[key] == daily_date)[0][0];
     oslist[key][dayindex, 1] += count] *)
Definition up_count (key : string) (daily_date : date) (count : Z)
    (oslist : gmap string series) : result (gmap string series) :=
  match oslist !! key with
  | None => Raise (KeyError key)
  | Some arr =>
      dayindex ← where_first arr daily_date;
      Ok (<[key := add_count arr dayindex count]> oslist)
  end.

(** Lines 70-73; [version[0]] of the empty string raises [IndexError]. *)
Definition major_version (version : string) : result string :=
  match version with
  | EmptyString => Raise IndexError
  | String c _ => Ok (if Ascii.eqb c "2" then "2.x" else "1.x")
  end.

(** Lines 76-79. *)
Definition mc_capability (version : string) : result string :=
  b ← Semver.match_ version MC_VERSION;
  Ok (if b : bool then "mc-capable" else "non-mc-capable").

(** Lines 64-81: the body of the loop over the rows of a daily sheet. *)
Definition count_row (daily_date : date) (oslist : gmap string series)
    (r : row) : result (gmap string series) :=
  let version := col0 r in
  let count := col2 r in
  oslist ← up_count version daily_date count oslist;
  special_version ← major_version version;
  oslist ← up_count special_version daily_date count oslist;
  capability ← mc_capability version;
  up_count capability daily_date count oslist.

(** Lines 60-81: the body of the loop over the date sheets. *)
Definition count_sheet (wb : workbook) (oslist : gmap string series)
    (daily : string) : result (gmap string series) :=
  daily_sheet ← sheet_by_name wb daily;
  daily_date ← get_date daily;
  for_each (count_row daily_date) (rows_from 2 daily_sheet) oslist.

Definition load_counts (wb : workbook) : result (gmap string series) :=
  let date_sheets := drop 3 (sheet_names wb) in
  dates ← empty_dates date_sheets;
  ossheet ← sheet_by_name wb "OSVer";
  let oslist := known_versions dates ossheet in
  for_each (count_sheet wb) date_sheets oslist.

(** ** Reading a result *)

(** The counts a series holds for date [d], added up. *)
Definition count_on (d : date) (s : series) : Z :=
  foldr (λ e acc, if bool_decide (e.1 = d) then e.2 + acc else acc) 0 s.

(** The count of key [k] on date [d]; 0 for a key that is not there. *)
Definition cnt (oslist : gmap string series) (k : string) (d : date) : Z :=
  from_option (count_on d) 0 (oslist !! k).

(** The keys the plots treat as exact versions: all but the extra ones. *)
Definition is_exact (k : string) : bool :=
  bool_decide (k ∉ extra_versions).

(** The counts on date [d] over the keys selected by [sel], added up. *)
Definition sum_over (sel : string → bool) (d : date)
    (oslist : gmap string series) : Z :=
  map_fold (λ k s acc, if sel k then count_on d s + acc else acc) 0 oslist.

(** ** Reading and writing dates *)

(** [strftime("%Y%m%d")]: four, two and two digits, zero padded. *)
Definition digit_char (n : Z) : ascii := ascii_of_N (Z.to_N (n + 48)).

Definition two_digits (n : Z) (rest : string) : string :=
  String (digit_char (n / 10)) (String (digit_char (n mod 10)) rest).

Definition format_Ymd (d : date) : string :=
  two_digits (year d / 100) (two_digits (year d mod 100)
    (two_digits (month d) (two_digits (day d) EmptyString))).

(** The number in the [len] characters of [s] from position [start]. *)
Definition field (start len : nat) (s : string) : Z :=
  int (substring start len s).

(** The month and day groups alone. *)
Definition re_md (s : string) : list (Z * Z * string) :=
  '(m, s2) ← re_m s;
  '(d, s3) ← re_d s2;
  [(m, d, s3)].

Definition digits : list ascii :=
  ["0"; "1"; "2"; "3"; "4"; "5"; "6"; "7"; "8"; "9"]%char.

(** What [re_md] does on four digits [f g h i]: read as month [fg] and
    day [hi] when those are in 1..12 and 1..31, and otherwise no match
    or a match that stops short. *)
Definition md_check (f g h i : ascii) : bool :=
  let m := 10 * digit_val f + digit_val g in
  let d := 10 * digit_val h + digit_val i in
  let s := String f (String g (String h (String i EmptyString))) in
  if (1 <=? m) && (m <=? 12) && (1 <=? d) && (d <=? 31)
  then match re_md s with
       | (m', d', rest) :: _ =>
           (m' =? m) && (d' =? d) && String.eqb rest ""
       | [] => false
       end
  else match re_md s with
       | (_, _, rest) :: _ => negb (String.eqb rest "")
       | [] => true
       end.

(** ** What a row and a sheet add *)

(** What one more count on [dd] does to the total of date [d]. *)
Definition on_date (d dd : date) (count : Z) : Z :=
  if bool_decide (d = dd) then count else 0.

(** The keys a row counts for: its version, the major version and the
    capability, when both can be worked out. *)
Definition row_keys (version : string) : result (list string) :=
  special_version ← major_version version;
  capability ← mc_capability version;
  Ok [version; special_version; capability].

(** What row [r] adds to key [k]. *)
Definition contribution (k : string) (r : row) : Z :=
  match row_keys (col0 r) with
  | Ok keys => if bool_decide (k ∈ keys) then col2 r else 0
  | Raise _ => 0
  end.

(** [sum(f(x) for x in xs)] *)
Definition Zsum {A} (f : A → Z) (xs : list A) : Z :=
  foldr (λ x acc, f x + acc) 0 xs.

(** What the daily sheet named [daily] adds to key [k] on date [d]. *)
Definition sheet_contribution (wb : workbook) (k : string) (d : date)
    (daily : string) : Z :=
  match sheet_by_name wb daily, get_date daily with
  | Ok daily_sheet, Ok daily_date =>
      on_date d daily_date (Zsum (contribution k) (rows_from 2 daily_sheet))
  | _, _ => 0
  end.

(** [semver.parse("2.12.0")] *)
Definition v2_12_0 : Semver.version_info :=
  Semver.VersionInfo 2 12 0 None None.

(** The version strings of the catalog sheet, below its header row. *)
Definition catalog (ossheet : sheet) : list string := col0 <$> rows_from 1 ossheet.

(** The keys [known_versions] makes. *)
Definition all_keys (ossheet : sheet) : list string :=
  (catalog ossheet ++ extra_versions)%list.

(** Both derived splits add up to the exact versions, on every date. *)
Definition balanced (oslist : gmap string series) : Prop :=
  ∀ d, sum_over is_exact d oslist = cnt oslist "1.x" d + cnt oslist "2.x" d
       ∧ sum_over is_exact d oslist
         = cnt oslist "mc-capable" d + cnt oslist "non-mc-capable" d.

(** Every series has the date column of the template. *)
Definition shaped (dates : series) (oslist : gmap string series) : Prop :=
  ∀ k arr, oslist !! k = Some arr → arr.*1 = dates.*1.

(** No series holds a negative count. *)
Definition nonneg (oslist : gmap string series) : Prop :=
  ∀ k arr, oslist !! k = Some arr → Forall (λ e, 0 ≤ e.2) arr.

(** [s.startswith(c)] for a single character [c]. *)
Definition starts_with (c : ascii) (s : string) : bool :=
  match s with
  | String a _ => Ascii.eqb a c
  | EmptyString => false
  end.

(** The characters a string that [get_date] accepts is made of. *)
Definition digit_or_blank (c : ascii) : bool := is_digit c || Ascii.eqb c " ".

(** A month or day group takes one or two characters. *)
Definition took (s r : string) : Prop :=
  (∃ a, s = String a r ∧ digit_or_blank a = true)
  ∨ (∃ a b, s = String a (String b r)
            ∧ digit_or_blank a = true ∧ digit_or_blank b = true).

(** ** Sample workbooks *)

Definition hdr : row := Row "header" 0.

(** Three catalog sheets and two daily sheets. *)
Definition wb_sample : workbook :=
  [ Sheet "SupervisorVer" [hdr];
    Sheet "OSVer" [hdr; Row "2.12.0" 0; Row "2.11.9" 0; Row "1.8.0" 0];
    Sheet "Mods" [hdr];
    Sheet "20200101" [hdr; hdr; Row "2.12.0" 5; Row "1.8.0" 2];
    Sheet "20200102" [hdr; hdr; Row "2.12.0" 5; Row "2.11.9" 7] ].

(** The catalog lists 2.12.0 twice. *)
Definition wb_duplicate : workbook :=
  [ Sheet "SupervisorVer" [hdr];
    Sheet "OSVer" [hdr; Row "2.12.0" 0; Row "2.12.0" 0];
    Sheet "Mods" [hdr];
    Sheet "20200101" [hdr; hdr; Row "2.12.0" 5] ].

(** A daily row with a count below zero. *)
Definition wb_negative : workbook :=
  [ Sheet "SupervisorVer" [hdr];
    Sheet "OSVer" [hdr; Row "2.12.0" 0];
    Sheet "Mods" [hdr];
    Sheet "20200101" [hdr; hdr; Row "2.12.0" (-5)] ].

(** A version that starts with 3. *)
Definition wb_three : workbook :=
  [ Sheet "SupervisorVer" [hdr];
    Sheet "OSVer" [hdr; Row "3.0.0" 0];
    Sheet "Mods" [hdr];
    Sheet "20200101" [hdr; hdr; Row "3.0.0" 5] ].

(** A daily row whose version is in the catalog but is no semantic version. *)
Definition wb_malformed : workbook :=
  [ Sheet "SupervisorVer" [hdr];
    Sheet "OSVer" [hdr; Row "2.12" 0];
    Sheet "Mods" [hdr];
    Sheet "20200101" [hdr; hdr; Row "2.12" 5] ].

(** A daily row for a version the catalog lacks. *)
Definition wb_unknown : workbook :=
  [ Sheet "SupervisorVer" [hdr];
    Sheet "OSVer" [hdr; Row "2.12.0" 0];
    Sheet "Mods" [hdr];
    Sheet "20200101" [hdr; hdr; Row "2.13.0" 5] ].


(** The catalog lists a derived key, and a daily row uses it. *)
Definition wb_collision : workbook :=
  [ Sheet "SupervisorVer" [hdr];
    Sheet "OSVer" [hdr; Row "2.12.0" 0; Row "2.x" 0];
    Sheet "Mods" [hdr];
    Sheet "20200101" [hdr; hdr; Row "2.x" 5] ].

(** ** The dict [load_counts] returns, as [plot_data] walks it *)

(** [for key in oslist] visits the keys in insertion order, and an
    assignment to a key that is there keeps its place. *)
Definition dict_setitem (keys : list string) (k : string) : list string :=
  if bool_decide (k ∈ keys) then keys else (keys ++ [k])%list.

(** The keys after lines 49-57: the catalog strings, then the extra
    versions, each where it was first assigned. *)
Definition key_order (ossheet : sheet) : list string :=
  foldl dict_setitem (foldl dict_setitem [] (catalog ossheet)) extra_versions.

(** The items of a mapping, in the order of [keys]. *)
Definition dict_items (keys : list string) (oslist : gmap string series)
  : list (string * series) :=
  omap (λ k, pair k <$> oslist !! k) keys.

(** [load_counts(workbook)] with the order of its keys. *)
Definition load_counts_items (wb : workbook) : result (list (string * series)) :=
  oslist ← load_counts wb;
  ossheet ← sheet_by_name wb "OSVer";
  Ok (dict_items (key_order ossheet) oslist).

(** ** [plot_data] and [format_plot] *)

Module Plot.

(** The three subplots of [plot_data]. *)
Inductive axes := ax1 | ax2 | ax3.

Global Instance axes_eq_dec : EqDecision axes.
Proof. solve_decision. Defined.

(** One call of [ax.plot]; [label] and [marker] are [None] when the call
    does not pass them. *)
Record line := Line {
  on : axes;
  xdata : list date;     (* counts[:, 0] *)
  ydata : list Z;        (* counts[:, 1] *)
  linewidth : Z;
  linestyle : string;
  label : option string;
  marker : option string
}.

(** What [format_plot] sets on a subplot, with the lines drawn on it. *)
Record figure := Figure {
  title : string;
  ylabel : string;
  ylim : Z;
  xlim : date * date;
  grid : bool;
  lines : list line
}.

(** What can go wrong after the loop. *)
Inductive exn :=
| UnboundLocalError   (* [counts] read before any assignment *)
| IndexError.         (* [counts[0, 0]] on an array without rows *)

Inductive outcome :=
| Shown (fig1 fig2 fig3 : figure)
| Raised (e : exn).

Definition major_versions : list string := ["1.x"; "2.x"].
Definition mc_capability : list string := ["mc-capable"; "non-mc-capable"].
Definition markers : list (option string) :=
  [None; Some "o"; Some "^"; Some "v"; Some "s"; Some "d"; Some "D"; Some "|"].

(** Lines 129-133. *)
Definition axis_of (key : string) : axes :=
  let ax := ax1 in
  let ax := if bool_decide (key ∈ major_versions) then ax2 else ax in
  if bool_decide (key ∈ mc_capability) then ax3 else ax.

(** The variables the loop of lines 128-152 changes, and its plot calls. *)
Record state := State {
  count : nat;
  counts : option series;
  plotted : list line
}.

(** Lines 129-152: the body of the loop, for one key and its value. *)
Definition plot_key (special_versions : list string) (st : state)
    (item : string * series) : state :=
  let key := item.1 in
  let ax := axis_of key in
  let counts := item.2 in
  if bool_decide (key ∈ special_versions) then
    State (S (count st)) (Some counts)
      (plotted st
       ++ [Line ax (counts.*1) (counts.*2) 3 "-" (Some key)
             (nth (count st mod length markers) markers None)])%list
  else
    State (count st) (Some counts)
      (plotted st ++ [Line ax (counts.*1) (counts.*2) 1 "--" None None])%list.

(** Line 154: [(counts[0, 0], counts[-1, 0])]. *)
Definition XLIM (counts : option series) : exn + (date * date) :=
  match counts with
  | None => inl UnboundLocalError
  | Some arr =>
      match head arr, last arr with
      | Some first, Some final => inr (first.1, final.1)
      | _, _ => inl IndexError
      end
  end.

(** Lines 85-106, without the tick locators and formatters. *)
Definition format_plot (ax : axes) (plotted : list line) (title : string)
    (xlim : date * date) : figure :=
  Figure title "Count" 0 xlim true (filter (λ l, on l = ax) plotted).

(** Lines 127-152: the loop, from [count = 0] and no plot call. *)
Definition loop (oslist : list (string * series))
    (special_versions : list string) : state :=
  foldl (plot_key special_versions) (State 0 None []) oslist.

Definition plot_data (oslist : list (string * series))
    (special_versions : list string) : outcome :=
  let st := loop oslist special_versions in
  match XLIM (counts st) with
  | inl e => Raised e
  | inr xlim =>
      Shown
        (format_plot ax1 (plotted st)
           "Device count in a rolling 28-day window by OS version" xlim)
        (format_plot ax2 (plotted st)
           "Device count in a rolling 28-day window by major OS version" xlim)
        (format_plot ax3 (plotted st)
           "Device count in a rolling 28-day window by multicontainer capability"
           xlim)
  end.

End Plot.

(** ** The script *)

Definition SPECIAL_VERSIONS : list string :=
  ["1.x"; "2.x"; "2.15.1"; "2.13.6"; "2.12.7"; "2.12.6"; "2.12.5"; "2.12.3";
   "2.9.7"; "2.7.5"; "2.3.0"; "2.2.0"; "mc-capable"; "non-mc-capable"].

(** How a run of the script ends. *)
Inductive run_end :=
| Exit (status : Z)              (* [sys.exit(status)] after the usage message *)
| Uncaught (e : Py.exn)          (* from [open_workbook] or [load_counts] *)
| UncaughtPlot (e : Plot.exn)    (* from [plot_data] *)
| Charts (fig1 fig2 fig3 : Plot.figure).

(** Lines 170-199; [open_workbook] stands for [xlrd.open_workbook] on the
    files at hand. *)
Definition main (open_workbook : string → result workbook)
    (argv : list string) : run_end :=
  if bool_decide (length argv < 2)%nat then Exit 1
  else
    match open_workbook (nth 1 argv EmptyString) with
    | Raise e => Uncaught e
    | Ok wb =>
        match load_counts_items wb with
        | Raise e => Uncaught e
        | Ok oslist =>
            match Plot.plot_data oslist SPECIAL_VERSIONS with
            | Plot.Raised e => UncaughtPlot e
            | Plot.Shown fig1 fig2 fig3 => Charts fig1 fig2 fig3
            end
        end
    end.

(** ** Statements about the whole run *)

(** The counts of all rows of the daily sheet [daily], on date [d]. *)
Definition sheet_total (wb : workbook) (d : date) (daily : string) : Z :=
  match sheet_by_name wb daily, get_date daily with
  | Ok daily_sheet, Ok daily_date =>
      on_date d daily_date (Zsum col2 (rows_from 2 daily_sheet))
  | _, _ => 0
  end.

(** From 2.12.0 on in semantic-version order: above it by major, minor
    or patch number, or 2.12.0 itself without a prerelease part. *)
Definition from_2_12_0 (vi : Semver.version_info) : Prop :=
  2 < Semver.major vi
  ∨ (Semver.major vi = 2
     ∧ (12 < Semver.minor vi
        ∨ (Semver.minor vi = 12
           ∧ (0 < Semver.patch vi
              ∨ (Semver.patch vi = 0 ∧ Semver.prerelease vi = None))))).

(** The dates and counts a plot call draws. *)
Definition drawn (l : Plot.line) : list date * list Z :=
  (Plot.xdata l, Plot.ydata l).

(** The two columns of a series. *)
Definition columns (arr : series) : list date * list Z := (arr.*1, arr.*2).

(** The plot call for the highlighted key of [item] when [n] highlighted
    keys came before it. *)
Definition highlight (n : nat) (item : string * series) : Plot.line :=
  Plot.Line (Plot.axis_of item.1) (item.2.*1) (item.2.*2) 3 "-" (Some item.1)
    (nth (n mod 8) Plot.markers None).

(** The plot calls that pass a label. *)
Definition labelled (plotted : list Plot.line) : list Plot.line :=
  filter (λ l, is_Some (Plot.label l)) plotted.

(** Two date sheets whose names stand for the same day. *)
Definition wb_same_day : workbook :=
  [ Sheet "SupervisorVer" [hdr];
    Sheet "OSVer" [hdr; Row "2.12.0" 0];
    Sheet "Mods" [hdr];
    Sheet "20200101" [hdr; hdr; Row "2.12.0" 5];
    Sheet "2020011" [hdr; hdr; Row "2.12.0" 7] ].

(** No sheet is named OSVer. *)
Definition wb_no_catalog : workbook :=
  [ Sheet "SupervisorVer" [hdr];
    Sheet "OSVersions" [hdr; Row "2.12.0" 0];
    Sheet "Mods" [hdr];
    Sheet "20200101" [hdr; hdr; Row "2.12.0" 5] ].

(** A fourth sheet whose name is no date. *)
Definition wb_bad_name : workbook :=
  [ Sheet "SupervisorVer" [hdr];
    Sheet "OSVer" [hdr; Row "2.12.0" 0];
    Sheet "Mods" [hdr];
    Sheet "Notes" [hdr; hdr; Row "2.12.0" 5] ].

(** The catalog lists 2.11.9, and no daily row mentions it. *)
Definition wb_idle_version : workbook :=
  [ Sheet "SupervisorVer" [hdr];
    Sheet "OSVer" [hdr; Row "2.12.0" 0; Row "2.11.9" 0];
    Sheet "Mods" [hdr];
    Sheet "20200101" [hdr; hdr; Row "2.12.0" 5] ].

(** In a series, an entry whose date stands earlier in the series too
    holds no count. *)
Definition later_zero (arr : series) : Prop :=
  ∀ i j e1 e2, (i < j)%nat → arr !! i = Some e1 → arr !! j = Some e2 →
               e1.1 = e2.1 → e2.2 = 0.

(** The catalog sheets alone. *)
Definition wb_no_days : workbook :=
  [ Sheet "SupervisorVer" [hdr];
    Sheet "OSVer" [hdr; Row "2.12.0" 0];
    Sheet "Mods" [hdr] ].






(** * Properties *)

(** ** The error monad *)

Lemma bind_Ok {A B} (c : result A) (k : A → result B) (b : B) :
  c ≫= k = Ok b → ∃ a, c = Ok a ∧ k a = Ok b.
Proof. destruct c as [a|e]; simpl; [eauto | discriminate]. Qed.

Lemma bind_Raise {A B} (c : result A) (k : A → result B) (e : exn) :
  c ≫= k = Raise e → c = Raise e ∨ ∃ a, c = Ok a ∧ k a = Raise e.
Proof. destruct c as [a|e']; simpl; [eauto | intros [= ->]; auto]. Qed.

Lemma not_Ok_fails {A} (c : result A) : (∀ a, c ≠ Ok a) → fails c.
Proof. destruct c as [a|e]; [intros H; destruct (H a eq_refl) | eexists; eauto]. Qed.

Lemma is_Ok_succeeds {A} (c : result A) : is_Ok c = true → succeeds c.
Proof. destruct c; [by eexists|discriminate]. Qed.


(** Membership of a literal in [extra_versions]. *)
Ltac in_extra :=
  unfold extra_versions;
  repeat first [apply list_elem_of_here | apply list_elem_of_further].

Ltac inv_bind H :=
  let a := fresh "a" in
  let Ha := fresh "Ha" in
  apply bind_Ok in H; destruct H as (a & Ha & H).

(** A loop that ends normally kept every invariant its body keeps. *)
Lemma for_each_invariant {A S} (P : S → Prop) (body : S → A → result S) xs :
  (∀ s x s', x ∈ xs → P s → body s x = Ok s' → P s') →
  ∀ s s', P s → for_each body xs s = Ok s' → P s'.
Proof.
  induction xs as [|x xs IH]; intros Hbody s s' Hs H; simpl in H.
  - by injection H as <-.
  - inv_bind H. apply (IH (λ s x s' Hx, Hbody s x s' (list_elem_of_further _ _ _ Hx)) a); [|done].
    eapply Hbody; [apply list_elem_of_here | done..].
Qed.

(** A loop that ends normally ran its body normally on every element,
    each time from a state satisfying the invariant. *)
Lemma for_each_Ok_body {A S} (P : S → Prop) (body : S → A → result S) xs :
  (∀ s x s', x ∈ xs → P s → body s x = Ok s' → P s') →
  ∀ s s', P s → for_each body xs s = Ok s' →
  ∀ x, x ∈ xs → ∃ s1 s2, P s1 ∧ body s1 x = Ok s2.
Proof.
  induction xs as [|x xs IH]; intros Hbody s s' Hs H y Hy; simpl in H.
  - by apply elem_of_nil in Hy.
  - inv_bind H. apply elem_of_cons in Hy as [->|Hy]; [by eauto|].
    apply (IH (λ s x s' Hx, Hbody s x s' (list_elem_of_further _ _ _ Hx)) a s'); [|done..].
    eapply Hbody; [apply list_elem_of_here | done..].
Qed.

(** ** [get_date] *)

Section get_date.

Local Open Scope list_scope.

Lemma is_digit_digits (c : ascii) : is_digit c = true → c ∈ digits.
Proof.
  destruct c as [[] [] [] [] [] [] [] []]; vm_compute; intros H;
    try discriminate H; clear H; unfold digits;
    repeat (first [apply list_elem_of_here | apply list_elem_of_further]).
Qed.

Lemma digit_char_digit (n : Z) :
  0 ≤ n ≤ 9 → is_digit (digit_char n) = true ∧ digit_val (digit_char n) = n.
Proof.
  intros Hn.
  assert (n = 0 ∨ n = 1 ∨ n = 2 ∨ n = 3 ∨ n = 4 ∨ n = 5 ∨ n = 6 ∨ n = 7
          ∨ n = 8 ∨ n = 9) as H by lia.
  repeat (destruct H as [->|H]; [by vm_compute|]). by subst.
Qed.

Lemma md_check_digits (f g h i : ascii) :
  f ∈ digits → g ∈ digits → h ∈ digits → i ∈ digits → md_check f g h i = true.
Proof.
  assert (forallb (λ f, forallb (λ g, forallb (λ h, forallb (λ i,
            md_check f g h i) digits) digits) digits) digits = true) as Hall
    by (vm_compute; reflexivity).
  intros Hf Hg Hh Hi.
  rewrite forallb_forall in Hall.
  specialize (Hall f (proj1 (list_elem_of_In _ _) Hf)).
  rewrite forallb_forall in Hall.
  specialize (Hall g (proj1 (list_elem_of_In _ _) Hg)).
  rewrite forallb_forall in Hall.
  specialize (Hall h (proj1 (list_elem_of_In _ _) Hh)).
  rewrite forallb_forall in Hall.
  exact (Hall i (proj1 (list_elem_of_In _ _) Hi)).
Qed.

(** After four digits, the year is read and the month and day groups go on. *)
Lemma re_Ymd_year (a b c e : ascii) (rest : string) :
  is_digit a = true → is_digit b = true → is_digit c = true → is_digit e = true →
  re_Ymd (String a (String b (String c (String e rest))))
  = (λ x, (1000 * digit_val a + 100 * digit_val b + 10 * digit_val c
           + digit_val e, x.1.1, x.1.2, x.2)) <$> re_md rest.
Proof.
  intros Ha Hb Hc He. unfold re_Ymd, re_md, re_Y.
  rewrite Ha, Hb, Hc, He. simpl andb. cbv iota.
  rewrite bind_singleton.
  generalize (re_m rest) as l. induction l as [|[m s2] l IH]; [done|].
  rewrite !bind_cons, fmap_app, <- IH. f_equal.
  generalize (re_d s2) as l2. induction l2 as [|[d s3] l2 IH2]; [done|].
  rewrite !bind_cons, fmap_app, <- IH2. done.
Qed.

Lemma valid_date_fields (y m d : Z) :
  valid_date y m d = true →
  1 ≤ y ≤ 9999 ∧ 1 ≤ m ≤ 12 ∧ 1 ≤ d ≤ 31.
Proof.
  unfold valid_date, days_in_month. intros H.
  repeat (apply andb_prop in H as [H ?]).
  repeat match goal with
         | H : context [if ?b then _ else _] |- _ => destruct b
         end; lia.
Qed.

(** On eight digits, [get_date] reads the fields where they stand and
    accepts exactly the real calendar dates. *)
Lemma get_date_eight_digits (a b c e f g h i : ascii) :
  is_digit a = true → is_digit b = true → is_digit c = true → is_digit e = true →
  is_digit f = true → is_digit g = true → is_digit h = true → is_digit i = true →
  let s := String a (String b (String c (String e
            (String f (String g (String h (String i EmptyString))))))) in
  let Y := 1000 * digit_val a + 100 * digit_val b + 10 * digit_val c + digit_val e in
  let M := 10 * digit_val f + digit_val g in
  let D := 10 * digit_val h + digit_val i in
  (valid_date Y M D = true → get_date s = Ok (Date Y M D))
  ∧ (valid_date Y M D = false → ∃ err, get_date s = Raise err ∧ is_FormatError err).
Proof.
  intros Ha Hb Hc He Hf Hg Hh Hi s Y M D.
  pose proof (md_check_digits f g h i (is_digit_digits _ Hf) (is_digit_digits _ Hg)
                (is_digit_digits _ Hh) (is_digit_digits _ Hi)) as Hck.
  unfold get_date, strptime_Ymd. subst s. rewrite re_Ymd_year by done.
  unfold md_check in Hck. fold M D in Hck.
  destruct ((1 <=? M) && (M <=? 12) && (1 <=? D) && (D <=? 31)) eqn:Hr.
  - destruct (re_md _) as [|[[m' d'] rest] l]; [discriminate|].
    apply andb_prop in Hck as [[Hm Hd]%andb_prop Hrest].
    apply Z.eqb_eq in Hm, Hd. subst m' d'. simpl. fold Y.
    rewrite Hrest. simpl.
    split; intros Hv; rewrite Hv; [done|]. eexists; split; [done|exact I].
  - assert (valid_date Y M D = false) as Hv.
    { destruct (valid_date Y M D) eqn:Hv; [|done].
      apply valid_date_fields in Hv. 
      apply andb_false_iff in Hr as [[[Hr|Hr]%andb_false_iff|Hr]%andb_false_iff|Hr]; lia. }
    split; [by rewrite Hv|intros _].
    destruct (re_md _) as [|[[m' d'] rest] l]; simpl.
    + eexists; split; [done|exact I].
    + rewrite Hck. eexists; split; [done|exact I].
Qed.

(** [strftime] and [strptime] agree on every real calendar date. *)
Lemma get_date_format_Ymd (dt : date) :
  valid_date (year dt) (month dt) (day dt) = true → get_date (format_Ymd dt) = Ok dt.
Proof.
  destruct dt as [y m d]. simpl. intros Hv.
  pose proof (valid_date_fields _ _ _ Hv) as (Hy & Hm & Hd).
  unfold format_Ymd, two_digits. simpl year; simpl month; simpl day.
  assert (0 ≤ y / 100 / 10 ≤ 9 ∧ 0 ≤ (y / 100) mod 10 ≤ 9
          ∧ 0 ≤ y mod 100 / 10 ≤ 9 ∧ 0 ≤ (y mod 100) mod 10 ≤ 9
          ∧ 0 ≤ m / 10 ≤ 9 ∧ 0 ≤ m mod 10 ≤ 9
          ∧ 0 ≤ d / 10 ≤ 9 ∧ 0 ≤ d mod 10 ≤ 9)
    as (H1 & H2 & H3 & H4 & H5 & H6 & H7 & H8)
    by (clear Hv; Z.div_mod_to_equations; lia).
  apply digit_char_digit in H1 as [D1 V1], H2 as [D2 V2], H3 as [D3 V3],
    H4 as [D4 V4], H5 as [D5 V5], H6 as [D6 V6], H7 as [D7 V7], H8 as [D8 V8].
  pose proof (get_date_eight_digits _ _ _ _ _ _ _ _ D1 D2 D3 D4 D5 D6 D7 D8) as [Hok _].
  cbv zeta in Hok. rewrite V1, V2, V3, V4, V5, V6, V7, V8 in Hok.
  replace (1000 * (y / 100 / 10) + 100 * ((y / 100) mod 10)
           + 10 * (y mod 100 / 10) + (y mod 100) mod 10) with y in Hok
    by (Z.div_mod_to_equations; lia).
  replace (10 * (m / 10) + m mod 10) with m in Hok
    by (Z.div_mod_to_equations; lia).
  replace (10 * (d / 10) + d mod 10) with d in Hok
    by (Z.div_mod_to_equations; lia).
  exact (Hok Hv).
Qed.

Lemma in_range_digit (lo hi c : ascii) :
  is_digit lo = true → is_digit hi = true → in_range lo hi c = true →
  digit_or_blank c = true.
Proof.
  unfold digit_or_blank, is_digit, in_range. intros Hlo Hhi Hc.
  apply andb_prop in Hlo as [Hlo _], Hhi as [_ Hhi], Hc as [Hc1 Hc2].
  apply N.leb_le in Hlo, Hhi, Hc1, Hc2.
  apply orb_true_iff; left. apply andb_true_iff; split; apply N.leb_le; lia.
Qed.

Lemma eqb_digit (x c : ascii) :
  digit_or_blank x = true → Ascii.eqb x c = true → digit_or_blank c = true.
Proof. by intros Hx ->%Ascii.eqb_eq. Qed.

Lemma is_digit_or_blank (c : ascii) : is_digit c = true → digit_or_blank c = true.
Proof. unfold digit_or_blank. by intros ->. Qed.

Lemma two_took p q s v r :
  (∀ c, p c = true → digit_or_blank c = true) →
  (∀ c, q c = true → digit_or_blank c = true) →
  (v, r) ∈ two p q s → took s r.
Proof.
  intros Hp Hq. unfold two. destruct s as [|a [|b s]]; try by intros ?%elem_of_nil.
  destruct (p a) eqn:Ha, (q b) eqn:Hb; simpl; try by intros ?%elem_of_nil.
  intros [= -> ->]%list_elem_of_singleton. right. exists a, b. auto.
Qed.

Lemma one_took p s v r :
  (∀ c, p c = true → digit_or_blank c = true) →
  (v, r) ∈ one p s → took s r.
Proof.
  intros Hp. unfold one. destruct s as [|a s]; try by intros ?%elem_of_nil.
  destruct (p a) eqn:Ha; simpl; try by intros ?%elem_of_nil.
  intros [= -> ->]%list_elem_of_singleton. left. exists a. auto.
Qed.

Lemma blank_one_took p s v r :
  (∀ c, p c = true → digit_or_blank c = true) →
  (v, r) ∈ blank_one p s → took s r.
Proof.
  intros Hp. unfold blank_one. destruct s as [|a [|b s]]; try by intros ?%elem_of_nil.
  destruct (Ascii.eqb a " ") eqn:Ha, (p b) eqn:Hb; simpl; try by intros ?%elem_of_nil.
  intros [= -> ->]%list_elem_of_singleton. right. exists a, b.
  repeat split; [|by apply Hp]. unfold digit_or_blank. rewrite Ha. apply orb_true_r.
Qed.

Local Ltac class_ok :=
  intros c Hc;
  first [ by apply is_digit_or_blank
        | by (eapply in_range_digit; [| |exact Hc])
        | by (eapply eqb_digit; [|exact Hc]) ].

Lemma re_m_took s v r : (v, r) ∈ re_m s → took s r.
Proof.
  unfold re_m. rewrite !elem_of_app. intros [H|[H|H]].
  - eapply two_took; [| |exact H]; class_ok.
  - eapply two_took; [| |exact H]; class_ok.
  - eapply one_took; [|exact H]; class_ok.
Qed.

Lemma re_d_took s v r : (v, r) ∈ re_d s → took s r.
Proof.
  unfold re_d. rewrite !elem_of_app. intros [H|[H|[H|[H|H]]]].
  - eapply two_took; [| |exact H]; class_ok.
  - eapply two_took; [| |exact H]; class_ok.
  - eapply two_took; [| |exact H]; class_ok.
  - eapply one_took; [|exact H]; class_ok.
  - eapply blank_one_took; [|exact H]; class_ok.
Qed.

(** Whatever [get_date] accepts is four digits followed by a month and a
    day of one or two characters each, and its value is a real date. *)
Lemma get_date_Ok_shape (s : string) (dt : date) :
  get_date s = Ok dt →
  valid_date (year dt) (month dt) (day dt) = true
  ∧ (6 ≤ String.length s ≤ 8)%nat
  ∧ string_forallb digit_or_blank s = true.
Proof.
  unfold get_date, strptime_Ymd.
  destruct (re_Ymd s) as [|[[[y m] d] rest] l] eqn:Hre; [discriminate|].
  destruct (String.eqb rest "") eqn:Hrest; [|discriminate]. simpl.
  destruct (valid_date y m d) eqn:Hv; [|discriminate].
  intros [= <-]. split; [done|]. apply String.eqb_eq in Hrest as ->.
  assert ((y, m, d, EmptyString) ∈ re_Ymd s) as Hin
    by (rewrite Hre; apply list_elem_of_here).
  unfold re_Ymd in Hin.
  apply list_elem_of_bind in Hin as ([y' s1] & Hin & HY).
  apply list_elem_of_bind in Hin as ([m' s2] & Hin & HM).
  apply list_elem_of_bind in Hin as ([d' s3] & Hin & HD).
  apply list_elem_of_singleton in Hin as [= -> -> -> <-].
  apply re_m_took in HM. apply re_d_took in HD.
  unfold re_Y in HY. destruct s as [|a [|b [|c [|e s]]]]; try by apply elem_of_nil in HY.
  destruct (is_digit a) eqn:Ha, (is_digit b) eqn:Hb, (is_digit c) eqn:Hc,
    (is_digit e) eqn:He; simpl in HY; try by apply elem_of_nil in HY.
  apply list_elem_of_singleton in HY as [= _ ->].
  apply is_digit_or_blank in Ha, Hb, Hc, He.
  destruct HM as [(f & -> & Hf)|(f & g & -> & Hf & Hg)];
    destruct HD as [(h & -> & Hh)|(h & i & -> & Hh & Hi)];
    simpl; rewrite ?Ha, ?Hb, ?Hc, ?He, ?Hf, ?Hg, ?Hh, ?Hi; simpl; repeat split; lia.
Qed.

(** Every exception [get_date] raises is a format error. *)
Lemma get_date_Raise (s : string) (err : exn) :
  get_date s = Raise err → is_FormatError err.
Proof.
  unfold get_date, strptime_Ymd.
  destruct (re_Ymd s) as [|[[[y m] d] rest] l]; [by intros [= <-]|].
  destruct (negb _); [by intros [= <-]|].
  destruct (valid_date y m d); [done|by intros [= <-]].
Qed.

End get_date.

(** ** Series and the mapping *)

Section series.

Implicit Types (arr : series) (d dd : date) (oslist : gmap string series).

Lemma count_on_add_count arr d dd i count :
  where_first arr dd = Ok i →
  count_on d (add_count arr i count) = count_on d arr + on_date d dd count.
Proof.
  unfold on_date, add_count. revert i.
  induction arr as [|[d' x] arr IH]; intros i; simpl; [discriminate|].
  destruct (bool_decide_reflect (d' = dd)) as [->|Hne].
  - intros [= <-]. simpl.
    repeat case_bool_decide; try congruence; lia.
  - destruct (where_first arr dd) as [j|] eqn:Hj; simpl; [|discriminate].
    intros [= <-]. specialize (IH j eq_refl). simpl. unfold alter in IH. rewrite IH.
    repeat case_bool_decide; try congruence; lia.
Qed.

Lemma add_count_dates arr i count : (add_count arr i count).*1 = arr.*1.
Proof.
  unfold add_count. revert i. induction arr as [|e arr IH]; intros [|i]; simpl;
    [done..|]. f_equal. apply IH.
Qed.

Lemma add_count_nonneg arr i count :
  0 ≤ count → Forall (λ e, 0 ≤ e.2) arr → Forall (λ e, 0 ≤ e.2) (add_count arr i count).
Proof.
  intros Hc H. unfold add_count. revert i.
  induction H as [|e arr He H IH]; intros [|i]; simpl; constructor; simpl;
    first [lia | done | apply IH].
Qed.

Lemma count_on_zero arr d : Forall (λ e, e.2 = 0) arr → count_on d arr = 0.
Proof.
  induction 1 as [|e arr He H IH]; simpl; [done|].
  case_bool_decide; lia.
Qed.

Lemma count_on_not_in arr d : d ∉ arr.*1 → count_on d arr = 0.
Proof.
  induction arr as [|[d' x] arr IH]; simpl; [done|].
  intros Hd. apply not_elem_of_cons in Hd as [Hne Hd].
  rewrite bool_decide_eq_false_2 by done. by apply IH.
Qed.

(** With one entry per date, the count on a date is that of its entry. *)
Lemma count_on_NoDup arr d (c : Z) :
  NoDup (arr.*1) → (d, c) ∈ arr → count_on d arr = c.
Proof.
  induction arr as [|[d' x] arr IH]; simpl; [by intros _ ?%elem_of_nil|].
  intros [Hnin Hnd]%NoDup_cons [[= -> ->]|Hin]%elem_of_cons.
  - rewrite bool_decide_eq_true_2 by done. rewrite count_on_not_in by done. lia.
  - rewrite bool_decide_eq_false_2; [by apply IH|].
    intros ->. apply Hnin. apply list_elem_of_fmap. by exists (d, c).
Qed.

Lemma up_count_Ok key dd count oslist oslist' :
  up_count key dd count oslist = Ok oslist' →
  ∃ arr i, oslist !! key = Some arr ∧ where_first arr dd = Ok i
           ∧ oslist' = <[key := add_count arr i count]> oslist.
Proof.
  unfold up_count. destruct (oslist !! key) as [arr|]; [|discriminate].
  intros H. inv_bind H. injection H as <-. eauto.
Qed.


Lemma cnt_up_count key dd count oslist oslist' k d :
  up_count key dd count oslist = Ok oslist' →
  cnt oslist' k d = cnt oslist k d + (if bool_decide (k = key) then on_date d dd count else 0).
Proof.
  intros (arr & i & Hk & Hi & ->)%up_count_Ok. unfold cnt.
  case_bool_decide as Hkk.
  - subst k. rewrite lookup_insert_eq, Hk. simpl. by apply count_on_add_count.
  - rewrite lookup_insert_ne by done. lia.
Qed.

Lemma dom_up_count key dd count oslist oslist' :
  up_count key dd count oslist = Ok oslist' → dom oslist' = dom oslist.
Proof.
  intros (arr & i & Hk & Hi & ->)%up_count_Ok.
  rewrite dom_insert_L. apply elem_of_dom_2 in Hk. set_solver.
Qed.

Lemma sum_over_comm (sel : string → bool) d (j1 j2 : string) (z1 z2 : series) (y : Z) :
  (if sel j1 then count_on d z1 + (if sel j2 then count_on d z2 + y else y)
   else (if sel j2 then count_on d z2 + y else y))
  = (if sel j2 then count_on d z2 + (if sel j1 then count_on d z1 + y else y)
     else (if sel j1 then count_on d z1 + y else y)).
Proof. destruct (sel j1), (sel j2); lia. Qed.

(** Replacing the series of one key changes the total by the difference. *)
Lemma sum_over_insert sel d oslist key arr arr' :
  oslist !! key = Some arr →
  sum_over sel d (<[key := arr']> oslist)
  = sum_over sel d oslist
    + (if sel key then count_on d arr' - count_on d arr else 0).
Proof.
  intros Hk. unfold sum_over.
  rewrite (map_fold_delete_L _ _ key arr oslist); [|intros; apply sum_over_comm|done].
  rewrite <- (insert_delete_eq oslist key arr').
  rewrite map_fold_insert_L; [|intros; apply sum_over_comm|apply lookup_delete_eq].
  destruct (sel key); lia.
Qed.

Lemma sum_over_up_count sel key dd count oslist oslist' d :
  up_count key dd count oslist = Ok oslist' →
  sum_over sel d oslist'
  = sum_over sel d oslist + (if sel key then on_date d dd count else 0).
Proof.
  intros (arr & i & Hk & Hi & ->)%up_count_Ok.
  rewrite (sum_over_insert _ _ _ _ arr) by done.
  rewrite (count_on_add_count _ _ dd) by done. destruct (sel key); lia.
Qed.

Lemma sum_over_zero sel d oslist :
  (∀ k arr, oslist !! k = Some arr → count_on d arr = 0) →
  sum_over sel d oslist = 0.
Proof.
  unfold sum_over.
  apply (map_fold_weak_ind (λ r m, (∀ k arr, m !! k = Some arr → count_on d arr = 0) → r = 0)).
  - done.
  - intros k arr m r Hk IH H.
    rewrite (H k arr) by apply lookup_insert_eq.
    rewrite IH; [by destruct (sel k)|].
    intros k' arr' Hk'. apply (H k'). rewrite lookup_insert_ne; [done|congruence].
Qed.

End series.

(** ** One daily row *)

Section count_row.

Implicit Types (d dd : date) (oslist : gmap string series) (r : row).

Lemma match_MC_VERSION (version : string) :
  Semver.match_ version MC_VERSION
  = (cmp_res ← Semver.compare version "2.12.0"; Ok (bool_decide (cmp_res ∈ [0; 1]))).
Proof. reflexivity. Qed.

Lemma mc_capability_parse (version : string) :
  mc_capability version
  = (vi ← Semver.parse version;
     Ok (if bool_decide (Semver.compare_by_keys vi v2_12_0 ∈ [0; 1])
         then "mc-capable" else "non-mc-capable")).
Proof.
  unfold mc_capability. rewrite match_MC_VERSION. unfold Semver.compare.
  destruct (Semver.parse version) as [vi|e]; reflexivity.
Qed.

(** Only a version that parses gets a capability. *)
Lemma mc_capability_Ok (version cap : string) :
  mc_capability version = Ok cap →
  succeeds (Semver.parse version) ∧ (cap = "mc-capable" ∨ cap = "non-mc-capable").
Proof.
  rewrite mc_capability_parse.
  destruct (Semver.parse version) as [vi|e]; simpl; [|discriminate].
  intros [= <-]. split; [by eexists|]. case_bool_decide; auto.
Qed.


(** Among versions without a prerelease part, the capable ones are those
    from 2.12.0 on, 2.12.0 included. *)
Lemma capable_from_2_12_0 (vi : Semver.version_info) :
  Semver.prerelease vi = None →
  Semver.compare_by_keys vi v2_12_0 ∈ [0; 1]
  ↔ 2 < Semver.major vi
    ∨ (Semver.major vi = 2
       ∧ (12 < Semver.minor vi
          ∨ (Semver.minor vi = 12 ∧ 0 ≤ Semver.patch vi))).
Proof.
  destruct vi as [maj min pat pre bld]. simpl. intros ->.
  unfold Semver.compare_by_keys, Semver.cmp. simpl.
  rewrite !elem_of_cons, elem_of_nil.
  repeat match goal with
         | |- context [?a <? ?b] => destruct (Z.ltb_spec a b)
         end; simpl; try lia;
    vm_compute (Semver.nat_cmp None None); simpl; lia.
Qed.

(** A version 2.12.0 with a prerelease part comes before 2.12.0. *)
Lemma prerelease_of_2_12_0 (pre : string) (bld : option string) :
  pre ≠ EmptyString →
  Semver.compare_by_keys (Semver.VersionInfo 2 12 0 (Some pre) bld) v2_12_0 = -1.
Proof.
  intros Hpre. unfold Semver.compare_by_keys, Semver.cmp. simpl.
  assert (Semver.nat_cmp (Some pre) None ≠ 0) as Hne.
  { unfold Semver.nat_cmp. simpl.
    destruct pre as [|c pre]; [done|]. clear Hpre.
    assert (Semver.cmp (Z.of_nat (String.length (String c pre))) (Z.of_nat 0) = 1)
      as ->
      by (unfold Semver.cmp; simpl String.length;
          repeat match goal with
                 | |- context [?a <? ?b] => destruct (Z.ltb_spec a b)
                 end; lia).
    destruct (Semver.split_dot (String c pre)) as [|p ps] eqn:Hsplit.
    { simpl in Hsplit. destruct (Ascii.eqb c "."); [discriminate|].
      destruct (Semver.split_dot pre); discriminate. }
    rewrite fmap_cons. vm_compute (Semver.convert ""). cbn [Semver.zip_cmp].
    destruct (Semver.convert p) as [n|[|a x]]; [by vm_compute| |by vm_compute].
    destruct ps; by vm_compute. }
  destruct (Semver.nat_cmp (Some pre) None =? 0) eqn:Hz;
    [by apply Z.eqb_eq in Hz|].
  simpl. destruct (String.eqb pre "") eqn:He; [by apply String.eqb_eq in He|done].
Qed.

(** None of the extra keys is a version [semver] can parse. *)
Lemma extra_versions_unparsable (version : string) :
  version ∈ extra_versions → fails (Semver.parse version).
Proof.
  unfold extra_versions. intros H.
  repeat (apply elem_of_cons in H as [->|H]; [by eexists|]).
  by apply elem_of_nil in H.
Qed.

Lemma major_version_Ok (version maj : string) :
  major_version version = Ok maj → maj = "1.x" ∨ maj = "2.x".
Proof.
  destruct version as [|c s]; simpl; [discriminate|].
  intros [= <-]. destruct (Ascii.eqb c "2"); auto.
Qed.

Lemma row_keys_Ok (version : string) (keys : list string) :
  row_keys version = Ok keys →
  ∃ maj cap, keys = [version; maj; cap]
    ∧ major_version version = Ok maj ∧ mc_capability version = Ok cap
    ∧ (version ∉ extra_versions)
    ∧ (maj = "1.x" ∨ maj = "2.x")
    ∧ (cap = "mc-capable" ∨ cap = "non-mc-capable").
Proof.
  unfold row_keys. intros H.
  apply bind_Ok in H as (maj & Hmaj & H). apply bind_Ok in H as (cap & Hcap & H).
  injection H as <-. exists maj, cap.
  pose proof (mc_capability_Ok _ _ Hcap) as [[vi Hvi] Hc].
  repeat split; try done; [|by eapply major_version_Ok].
  intros [e He]%extra_versions_unparsable. congruence.
Qed.

(** A row that is counted went through the three updates of the loop body. *)
Lemma count_row_Ok dd oslist r oslist' :
  count_row dd oslist r = Ok oslist' →
  ∃ maj cap oslist1 oslist2,
    row_keys (col0 r) = Ok [col0 r; maj; cap]
    ∧ up_count (col0 r) dd (col2 r) oslist = Ok oslist1
    ∧ up_count maj dd (col2 r) oslist1 = Ok oslist2
    ∧ up_count cap dd (col2 r) oslist2 = Ok oslist'.
Proof.
  unfold count_row. intros H.
  apply bind_Ok in H as (oslist1 & H1 & H).
  apply bind_Ok in H as (maj & Hmaj & H).
  apply bind_Ok in H as (oslist2 & H2 & H).
  apply bind_Ok in H as (cap & Hcap & H).
  exists maj, cap, oslist1, oslist2. repeat split; try done.
  unfold row_keys. by rewrite Hmaj, Hcap.
Qed.

Lemma row_keys_cases (version maj cap k : string) :
  row_keys version = Ok [version; maj; cap] →
  (if bool_decide (k ∈ [version; maj; cap]) then 1 else 0)
  = (if bool_decide (k = version) then 1 else 0)
    + (if bool_decide (k = maj) then 1 else 0)
    + (if bool_decide (k = cap) then 1 else 0).
Proof.
  intros (maj' & cap' & [= <- <-] & _ & _ & Hv & Hmaj & Hcap)%row_keys_Ok.
  assert (maj ≠ cap) by (destruct Hmaj as [->| ->], Hcap as [->| ->]; discriminate).
  assert (maj ∈ extra_versions)
    by (unfold extra_versions; destruct Hmaj as [->| ->]; set_solver).
  assert (cap ∈ extra_versions)
    by (unfold extra_versions; destruct Hcap as [->| ->]; set_solver).
  assert (version ≠ maj) by congruence. assert (version ≠ cap) by congruence.
  repeat case_bool_decide; try lia; set_solver.
Qed.

(** A counted row adds its count, on the sheet's date, to each of its
    three keys and to no other. *)
Lemma cnt_count_row dd oslist r oslist' k d :
  count_row dd oslist r = Ok oslist' →
  cnt oslist' k d = cnt oslist k d + on_date d dd (contribution k r).
Proof.
  intros (maj & cap & o1 & o2 & Hkeys & H1 & H2 & H3)%count_row_Ok.
  rewrite (cnt_up_count _ _ _ _ _ _ _ H3), (cnt_up_count _ _ _ _ _ _ _ H2),
    (cnt_up_count _ _ _ _ _ _ _ H1).
  unfold contribution. rewrite Hkeys.
  pose proof (row_keys_cases _ _ _ k Hkeys) as Hc.
  unfold on_date. repeat case_bool_decide; lia.
Qed.

Lemma sum_over_count_row sel dd oslist r oslist' d :
  count_row dd oslist r = Ok oslist' →
  ∃ maj cap, row_keys (col0 r) = Ok [col0 r; maj; cap] ∧
  sum_over sel d oslist'
  = sum_over sel d oslist
    + (if sel (col0 r) then on_date d dd (col2 r) else 0)
    + (if sel maj then on_date d dd (col2 r) else 0)
    + (if sel cap then on_date d dd (col2 r) else 0).
Proof.
  intros (maj & cap & o1 & o2 & Hkeys & H1 & H2 & H3)%count_row_Ok.
  exists maj, cap. split; [done|].
  rewrite (sum_over_up_count _ _ _ _ _ _ _ H3), (sum_over_up_count _ _ _ _ _ _ _ H2),
    (sum_over_up_count _ _ _ _ _ _ _ H1). lia.
Qed.

Lemma dom_count_row dd oslist r oslist' :
  count_row dd oslist r = Ok oslist' → dom oslist' = dom oslist.
Proof.
  intros (maj & cap & o1 & o2 & Hkeys & H1 & H2 & H3)%count_row_Ok.
  apply dom_up_count in H1, H2, H3. congruence.
Qed.

End count_row.

(** ** The loops of [load_counts] *)

Section loops.

Implicit Types (d dd : date) (oslist : gmap string series) (r : row)
  (wb : workbook) (dates : series).

Lemma for_each_Zsum {A S} (f : S → Z) (g : A → Z) (body : S → A → result S) xs :
  (∀ s x s', body s x = Ok s' → f s' = f s + g x) →
  ∀ s s', for_each body xs s = Ok s' → f s' = f s + Zsum g xs.
Proof.
  intros Hbody. induction xs as [|x xs IH]; intros s s' H; simpl in *.
  - injection H as <-. lia.
  - apply bind_Ok in H as (s1 & H1 & H). rewrite (IH _ _ H), (Hbody _ _ _ H1). lia.
Qed.

Lemma Zsum_on_date {A} (g : A → Z) d dd xs :
  Zsum (λ x, on_date d dd (g x)) xs = on_date d dd (Zsum g xs).
Proof.
  unfold on_date. induction xs as [|x xs IH]; simpl; [by case_bool_decide|].
  rewrite IH. case_bool_decide; lia.
Qed.

(** The first loop: a zero entry per date sheet, in sheet order. *)
Lemma empty_dates_Ok (date_sheets : list string) dates :
  empty_dates date_sheets = Ok dates →
  Forall2 (λ n e, get_date n = Ok e.1 ∧ e.2 = 0) date_sheets dates.
Proof.
  unfold empty_dates.
  enough (∀ acc, for_each (λ dates n, d ← get_date n; Ok (dates ++ [(d, 0)])%list)
                   date_sheets acc = Ok dates →
          ∃ ds, dates = (acc ++ ds)%list
                ∧ Forall2 (λ n e, get_date n = Ok e.1 ∧ e.2 = 0) date_sheets ds)
    as Hgen.
  { intros H. apply Hgen in H as (ds & -> & H). done. }
  induction date_sheets as [|n ns IH]; intros acc H; simpl in H.
  - injection H as <-. exists []. by rewrite app_nil_r.
  - apply bind_Ok in H as (acc' & H1 & H).
    apply bind_Ok in H1 as (d & Hd & [= <-]).
    apply IH in H as (ds & -> & HF). exists ((d, 0) :: ds).
    split; [by rewrite <- app_assoc|]. by constructor.
Qed.

Lemma empty_dates_zero (date_sheets : list string) dates d :
  empty_dates date_sheets = Ok dates → count_on d dates = 0.
Proof.
  intros H%empty_dates_Ok. apply count_on_zero.
  induction H as [|n e ns es [_ He] H IH]; by constructor.
Qed.

Lemma foldl_insert_lookup {A} (key : A → string) dates (xs : list A) oslist (k : string) :
  foldl (λ oslist x, <[key x := dates]> oslist) oslist xs !! k
  = if bool_decide (k ∈ key <$> xs) then Some dates else oslist !! k.
Proof.
  revert oslist. induction xs as [|x xs IH]; intros oslist; [done|].
  cbn [foldl]. rewrite IH, fmap_cons. destruct (decide (k ∈ key <$> xs)) as [Hin|Hnin].
  - rewrite !bool_decide_eq_true_2; [done|by apply list_elem_of_further|done].
  - rewrite (bool_decide_eq_false_2 _ Hnin).
    destruct (decide (k = key x)) as [->|Hne].
    + rewrite lookup_insert_eq, bool_decide_eq_true_2; [done|apply list_elem_of_here].
    + rewrite lookup_insert_ne by done.
      rewrite bool_decide_eq_false_2; [done|]. by intros [?|?]%elem_of_cons.
Qed.

(** The mapping before any count: the zero template under every key. *)
Lemma known_versions_lookup dates (ossheet : sheet) (k : string) :
  known_versions dates ossheet !! k
  = if bool_decide (k ∈ all_keys ossheet) then Some dates else None.
Proof.
  unfold known_versions, all_keys, catalog.
  rewrite (foldl_insert_lookup id), (foldl_insert_lookup col0), lookup_empty.
  rewrite list_fmap_id.
  repeat case_bool_decide; try done; set_solver.
Qed.

Lemma dom_known_versions dates (ossheet : sheet) :
  dom (known_versions dates ossheet) = list_to_set (all_keys ossheet).
Proof.
  apply set_eq. intros k.
  rewrite elem_of_dom, known_versions_lookup, elem_of_list_to_set.
  case_bool_decide; split; intros Hk; try done; by destruct Hk.
Qed.

Lemma load_counts_Ok wb oslist :
  load_counts wb = Ok oslist →
  ∃ dates ossheet,
    empty_dates (drop 3 (sheet_names wb)) = Ok dates
    ∧ sheet_by_name wb "OSVer" = Ok ossheet
    ∧ for_each (count_sheet wb) (drop 3 (sheet_names wb))
        (known_versions dates ossheet) = Ok oslist.
Proof.
  unfold load_counts. intros H.
  apply bind_Ok in H as (dates & Hd & H). apply bind_Ok in H as (ossheet & Hs & H).
  eauto.
Qed.

Lemma count_sheet_Ok wb oslist daily oslist' :
  count_sheet wb oslist daily = Ok oslist' →
  ∃ daily_sheet daily_date,
    sheet_by_name wb daily = Ok daily_sheet ∧ get_date daily = Ok daily_date
    ∧ for_each (count_row daily_date) (rows_from 2 daily_sheet) oslist = Ok oslist'.
Proof.
  unfold count_sheet. intros H.
  apply bind_Ok in H as (sh & Hs & H). apply bind_Ok in H as (dd & Hd & H). eauto.
Qed.

Lemma cnt_count_sheet wb oslist daily oslist' k d :
  count_sheet wb oslist daily = Ok oslist' →
  cnt oslist' k d = cnt oslist k d + sheet_contribution wb k d daily.
Proof.
  intros (sh & dd & Hs & Hd & H)%count_sheet_Ok.
  unfold sheet_contribution. rewrite Hs, Hd, <- Zsum_on_date.
  revert H. apply (for_each_Zsum (λ o, cnt o k d)).
  intros s r s' Hr. by apply cnt_count_row.
Qed.

Lemma dom_count_sheet wb oslist daily oslist' :
  count_sheet wb oslist daily = Ok oslist' → dom oslist' = dom oslist.
Proof.
  intros (sh & dd & Hs & Hd & H)%count_sheet_Ok.
  revert H. apply (for_each_invariant (λ o, dom o = dom oslist)); [|done].
  intros s r s' _ Hs' Hr. apply dom_count_row in Hr. congruence.
Qed.

End loops.

(** ** Invariants of the counting loops *)

Section invariants.

Implicit Types (d dd : date) (oslist : gmap string series) (r : row)
  (wb : workbook) (dates : series).

Lemma shaped_up_count dates key dd count oslist oslist' :
  shaped dates oslist → up_count key dd count oslist = Ok oslist' →
  shaped dates oslist'.
Proof.
  intros Hs (arr & i & Hk & Hi & ->)%up_count_Ok k arr'.
  destruct (decide (k = key)) as [->|Hne].
  - rewrite lookup_insert_eq. intros [= <-]. rewrite add_count_dates. by eapply Hs.
  - rewrite lookup_insert_ne by done. apply Hs.
Qed.

Lemma shaped_count_row dates dd oslist r oslist' :
  shaped dates oslist → count_row dd oslist r = Ok oslist' → shaped dates oslist'.
Proof.
  intros Hs (maj & cap & o1 & o2 & _ & H1 & H2 & H3)%count_row_Ok.
  eauto using shaped_up_count.
Qed.

Lemma shaped_count_sheet dates wb oslist daily oslist' :
  shaped dates oslist → count_sheet wb oslist daily = Ok oslist' →
  shaped dates oslist'.
Proof.
  intros Hs (sh & dd & _ & _ & H)%count_sheet_Ok. revert H.
  apply for_each_invariant; [|done]. intros s r s' _. apply shaped_count_row.
Qed.

Lemma nonneg_up_count key dd count oslist oslist' :
  0 ≤ count → nonneg oslist → up_count key dd count oslist = Ok oslist' →
  nonneg oslist'.
Proof.
  intros Hc Hs (arr & i & Hk & Hi & ->)%up_count_Ok k arr'.
  destruct (decide (k = key)) as [->|Hne].
  - rewrite lookup_insert_eq. intros [= <-]. apply add_count_nonneg; [done|].
    by eapply Hs.
  - rewrite lookup_insert_ne by done. apply Hs.
Qed.

Lemma nonneg_count_row dd oslist r oslist' :
  0 ≤ col2 r → nonneg oslist → count_row dd oslist r = Ok oslist' →
  nonneg oslist'.
Proof.
  intros Hc Hs (maj & cap & o1 & o2 & _ & H1 & H2 & H3)%count_row_Ok.
  eauto using nonneg_up_count.
Qed.

Lemma on_date_plus d dd (x y : Z) :
  on_date d dd x + on_date d dd y = on_date d dd (x + y).
Proof. unfold on_date. case_bool_decide; lia. Qed.

Lemma in_row_keys (k version maj cap : string) :
  k ∈ extra_versions → version ∉ extra_versions →
  k ∈ [version; maj; cap] ↔ k = maj ∨ k = cap.
Proof.
  intros Hk Hv. rewrite !elem_of_cons, elem_of_nil.
  split; [intros [->|[?|[?|[]]]]; [contradiction|auto..] | intros [?|?]; auto].
Qed.

(** What a row adds to one of the four derived keys. *)
Lemma contribution_extra r (maj cap k : string) :
  row_keys (col0 r) = Ok [col0 r; maj; cap] → k ∈ extra_versions →
  contribution k r = if bool_decide (k = maj ∨ k = cap) then col2 r else 0.
Proof.
  intros Hkeys Hk. unfold contribution. rewrite Hkeys.
  apply row_keys_Ok in Hkeys as (? & ? & _ & _ & _ & Hv & _).
  by rewrite (bool_decide_ext _ _ (in_row_keys k _ maj cap Hk Hv)).
Qed.

(** A row counts once for the major versions and once for the capabilities. *)
Lemma contribution_split r (maj cap : string) :
  row_keys (col0 r) = Ok [col0 r; maj; cap] →
  contribution "1.x" r + contribution "2.x" r = col2 r
  ∧ contribution "mc-capable" r + contribution "non-mc-capable" r = col2 r.
Proof.
  intros Hkeys.
  rewrite !(contribution_extra r maj cap) by (done || in_extra).
  apply row_keys_Ok in Hkeys as (? & ? & [= <- <-] & _ & _ & _ & Hm & Hc).
  destruct Hm as [->| ->], Hc as [->| ->]; split; vm_compute bool_decide;
    cbv iota; lia.
Qed.

Lemma balanced_count_row dd oslist r oslist' :
  balanced oslist → count_row dd oslist r = Ok oslist' → balanced oslist'.
Proof.
  intros Hb Hrow d. destruct (Hb d) as [Hmaj Hcap].
  destruct (sum_over_count_row is_exact _ _ _ _ d Hrow) as (maj & cap & Hkeys & ->).
  rewrite !(cnt_count_row _ _ _ _ _ d Hrow).
  destruct (contribution_split r maj cap Hkeys) as [H12 Hmc].
  pose proof (on_date_plus d dd (contribution "1.x" r) (contribution "2.x" r)) as E12.
  pose proof (on_date_plus d dd (contribution "mc-capable" r)
                (contribution "non-mc-capable" r)) as Emc.
  rewrite H12 in E12. rewrite Hmc in Emc.
  apply row_keys_Ok in Hkeys as (? & ? & [= <- <-] & _ & _ & Hv & Hm & Hc).
  assert (is_exact (col0 r) = true) as -> by (by apply bool_decide_eq_true_2).
  assert (is_exact maj = false) as ->
    by (destruct Hm as [->| ->]; reflexivity).
  assert (is_exact cap = false) as ->
    by (destruct Hc as [->| ->]; reflexivity).
  lia.
Qed.

Lemma balanced_count_sheet wb oslist daily oslist' :
  balanced oslist → count_sheet wb oslist daily = Ok oslist' → balanced oslist'.
Proof.
  intros Hs (sh & dd & _ & _ & H)%count_sheet_Ok. revert H.
  apply for_each_invariant; [|done]. intros s r s' _. apply balanced_count_row.
Qed.

Lemma cnt_known_versions (date_sheets : list string) dates (ossheet : sheet) k d :
  empty_dates date_sheets = Ok dates →
  cnt (known_versions dates ossheet) k d = 0.
Proof.
  intros Hd. unfold cnt. rewrite known_versions_lookup.
  case_bool_decide; simpl; [by eapply empty_dates_zero|done].
Qed.

Lemma balanced_known_versions (date_sheets : list string) dates (ossheet : sheet) :
  empty_dates date_sheets = Ok dates → balanced (known_versions dates ossheet).
Proof.
  intros Hd d. rewrite !(cnt_known_versions date_sheets) by done.
  rewrite sum_over_zero; [done|]. intros k arr.
  rewrite known_versions_lookup. case_bool_decide; [|done].
  intros [= <-]. by eapply empty_dates_zero.
Qed.

Lemma load_counts_balanced wb oslist :
  load_counts wb = Ok oslist → balanced oslist.
Proof.
  intros (dates & ossheet & Hd & _ & H)%load_counts_Ok. revert H.
  apply for_each_invariant; [|by eapply balanced_known_versions].
  intros s n s' _. apply balanced_count_sheet.
Qed.

Lemma size_list_to_set_le (l : list string) :
  (size (list_to_set l : gset string) ≤ length l)%nat.
Proof.
  induction l as [|x l IH]; [by rewrite list_to_set_nil, size_empty|].
  rewrite list_to_set_cons, size_union_alt, size_singleton. cbn [length].
  pose proof (subseteq_size (list_to_set l ∖ {[x]}) (list_to_set l : gset string)) as Hle.
  specialize (Hle ltac:(set_solver)). lia.
Qed.

Lemma size_list_to_set_lt (l : list string) :
  ¬ NoDup l → (size (list_to_set l : gset string) < length l)%nat.
Proof.
  induction l as [|x l IH]; intros Hnd; [destruct Hnd; constructor|].
  rewrite list_to_set_cons. cbn [length].
  destruct (decide (x ∈ l)) as [Hin|Hnin].
  - replace ({[x]} ∪ list_to_set l : gset string) with (list_to_set l : gset string)
      by set_solver.
    pose proof (size_list_to_set_le l). lia.
  - assert (¬ NoDup l) as Hl by (intros Hl; apply Hnd; by constructor).
    apply IH in Hl. rewrite size_union_alt, size_singleton.
    pose proof (subseteq_size (list_to_set l ∖ {[x]}) (list_to_set l : gset string)) as Hle.
    specialize (Hle ltac:(set_solver)). lia.
Qed.

Lemma length_all_keys (ossheet : sheet) :
  length (all_keys ossheet) = (length (catalog ossheet) + 4)%nat.
Proof. unfold all_keys. by rewrite length_app. Qed.

(** The keys and the shape of what [load_counts] returns. *)
Lemma load_counts_shape wb oslist :
  load_counts wb = Ok oslist →
  ∃ dates ossheet,
    empty_dates (drop 3 (sheet_names wb)) = Ok dates
    ∧ sheet_by_name wb "OSVer" = Ok ossheet
    ∧ dom oslist = list_to_set (all_keys ossheet)
    ∧ shaped dates oslist.
Proof.
  intros (dates & ossheet & Hd & Hs & H)%load_counts_Ok.
  exists dates, ossheet. split; [done|]. split; [done|].
  rewrite <- (dom_known_versions dates). revert H.
  apply (for_each_invariant
           (λ o, dom o = dom (known_versions dates ossheet) ∧ shaped dates o)).
  - intros s n s' _ [Hdom Hsh] Hn. split.
    + apply dom_count_sheet in Hn. congruence.
    + by eapply shaped_count_sheet.
  - split; [done|]. intros k arr. rewrite known_versions_lookup.
    case_bool_decide; [|done]. by intros [= <-].
Qed.

(** Every row of every date sheet was counted, from a mapping with the
    keys of the result. *)
Lemma load_counts_rows wb oslist daily (daily_sheet : sheet) r :
  load_counts wb = Ok oslist →
  daily ∈ drop 3 (sheet_names wb) →
  sheet_by_name wb daily = Ok daily_sheet →
  r ∈ rows_from 2 daily_sheet →
  ∃ dd oslist1 oslist2,
    dom oslist1 = dom oslist ∧ count_row dd oslist1 r = Ok oslist2.
Proof.
  intros Hload Hdaily Hsheet Hr.
  pose proof Hload as (dates & ossheet & _ & _ & Hdom & _)%load_counts_shape.
  apply load_counts_Ok in Hload as (dates' & ossheet' & _ & _ & H).
  set (P := λ o : gmap string series, dom o = dom oslist).
  assert (P (known_versions dates' ossheet')) as HP0.
  { unfold P. revert H.
    apply (for_each_invariant (λ o, dom (known_versions dates' ossheet') = dom o));
      [|done].
    intros s n s' _ Hs Hn. apply dom_count_sheet in Hn. congruence. }
  destruct (for_each_Ok_body P (count_sheet wb) _
              (λ s n s' _ Hs Hn, eq_trans (dom_count_sheet _ _ _ _ Hn) Hs)
              _ _ HP0 H daily Hdaily) as (o1 & o2 & Ho1 & Hn).
  apply count_sheet_Ok in Hn as (sh & dd & Hsh & _ & Hrows).
  rewrite Hsheet in Hsh. injection Hsh as <-.
  destruct (for_each_Ok_body P (count_row dd) _
              (λ s x s' _ Hs Hx, eq_trans (dom_count_row _ _ _ _ Hx) Hs)
              _ _ Ho1 Hrows r Hr) as (o3 & o4 & Ho3 & Hx).
  exists dd, o3, o4. done.
Qed.

(** ** Which exceptions can come out *)

Lemma for_each_Raise {A S} (body : S → A → result S) xs s e :
  for_each body xs s = Raise e → ∃ x s1, x ∈ xs ∧ body s1 x = Raise e.
Proof.
  revert s. induction xs as [|x xs IH]; intros s H; simpl in H; [discriminate|].
  apply bind_Raise in H as [H|(s' & _ & H)].
  - exists x, s. split; [apply list_elem_of_here|done].
  - apply IH in H as (y & s1 & Hy & H). exists y, s1.
    split; [by apply list_elem_of_further|done].
Qed.








End invariants.

(** ** The result of [load_counts] *)

(** Runs a closed call and keeps its value with the equation. *)
Ltac run c o H :=
  destruct (is_Ok_succeeds c ltac:(vm_compute; reflexivity)) as [o H].

Lemma Forall2_dates (P : string → date → Prop) (names : list string) (dates arr : series) :
  Forall2 (λ n e, P n e.1 ∧ e.2 = 0) names dates →
  arr.*1 = dates.*1 →
  Forall2 (λ n e, P n e.1) names arr.
Proof.
  intros HF Heq.
  assert (Forall2 P names (dates.*1)) as H.
  { apply Forall2_fmap_r. eapply Forall2_impl; [exact HF|]. by intros n e [? _]. }
  rewrite <- Heq in H. apply (proj1 (Forall2_fmap_r _ _ _ _)) in H.
  eapply Forall2_impl; [exact H|]. by intros n e ?.
Qed.

(** C1 (amended): when [load_counts] returns a mapping, its keys are the
    strings of the catalog sheet together with 1.x, 2.x, mc-capable and
    non-mc-capable; there are V+4 of them when the V catalog strings are
    pairwise distinct and none is a derived key, and never more; every
    series has one entry per date sheet, dated in sheet order. *)
Theorem load_counts_keys_and_series (wb : workbook) (oslist : gmap string series) :
  load_counts wb = Ok oslist →
  ∃ ossheet,
    sheet_by_name wb "OSVer" = Ok ossheet
    ∧ dom oslist = list_to_set (all_keys ossheet)
    ∧ (NoDup (all_keys ossheet) → size oslist = (length (catalog ossheet) + 4)%nat)
    ∧ (size oslist ≤ length (catalog ossheet) + 4)%nat
    ∧ ∀ k arr, oslist !! k = Some arr →
        length arr = length (drop 3 (sheet_names wb))
        ∧ Forall2 (λ n e, get_date n = Ok e.1) (drop 3 (sheet_names wb)) arr.
Proof.
  intros (dates & ossheet & Hd & Hs & Hdom & Hsh)%load_counts_shape.
  exists ossheet. split; [done|]. split; [done|].
  assert (size oslist = size (dom oslist)) as -> by (symmetry; apply size_dom).
  rewrite Hdom, <- length_all_keys.
  split; [intros Hnd; by apply size_list_to_set|]. split; [apply size_list_to_set_le|].
  intros k arr Hk. apply empty_dates_Ok in Hd.
  pose proof (Forall2_dates (λ n d, get_date n = Ok d) _ _ _ Hd (Hsh k arr Hk)) as HF.
  split; [|done]. symmetry. by eapply Forall2_length.
Qed.

Lemma load_counts_keys_and_series_witness :
  ∃ oslist, load_counts wb_sample = Ok oslist ∧
  ∃ ossheet,
    sheet_by_name wb_sample "OSVer" = Ok ossheet
    ∧ dom oslist = list_to_set (all_keys ossheet)
    ∧ (NoDup (all_keys ossheet) → size oslist = (length (catalog ossheet) + 4)%nat)
    ∧ (size oslist ≤ length (catalog ossheet) + 4)%nat
    ∧ ∀ k arr, oslist !! k = Some arr →
        length arr = length (drop 3 (sheet_names wb_sample))
        ∧ Forall2 (λ n e, get_date n = Ok e.1) (drop 3 (sheet_names wb_sample)) arr.
Proof.
  run (load_counts wb_sample) o H. exists o. split; [exact H|].
  exact (load_counts_keys_and_series wb_sample _ H).
Defined.

(** C1 as stated fails: with 2.12.0 listed twice, V is 2 and the mapping
    has 5 keys, not 6. *)
Lemma load_counts_duplicate_catalog :
  ∃ oslist ossheet,
    load_counts wb_duplicate = Ok oslist
    ∧ sheet_by_name wb_duplicate "OSVer" = Ok ossheet
    ∧ length (catalog ossheet) = 2%nat
    ∧ size oslist = 5%nat.
Proof.
  run (load_counts wb_duplicate) o H. exists o. eexists.
  split; [exact H|]. split; [reflexivity|]. split; [reflexivity|].
  apply (f_equal (λ c, m ← c; Ok (size m))) in H. vm_compute in H. by injection H.
Qed.

(** C2: on every date, the counts of the exact-version keys add up to
    the count of 1.x plus the count of 2.x. *)
Theorem exact_versions_sum_major (wb : workbook) (oslist : gmap string series) (d : date) :
  load_counts wb = Ok oslist →
  sum_over is_exact d oslist = cnt oslist "1.x" d + cnt oslist "2.x" d.
Proof. intros H%load_counts_balanced. apply H. Qed.

Lemma exact_versions_sum_major_witness :
  ∃ oslist, load_counts wb_sample = Ok oslist ∧
  sum_over is_exact (Date 2020 1 2) oslist
  = cnt oslist "1.x" (Date 2020 1 2) + cnt oslist "2.x" (Date 2020 1 2).
Proof.
  run (load_counts wb_sample) o H. exists o. split; [exact H|].
  exact (exact_versions_sum_major wb_sample _ _ H).
Defined.

(** C3: on every date, the counts of the exact-version keys add up to
    the count of mc-capable plus the count of non-mc-capable. *)
Theorem exact_versions_sum_capability (wb : workbook) (oslist : gmap string series) (d : date) :
  load_counts wb = Ok oslist →
  sum_over is_exact d oslist
  = cnt oslist "mc-capable" d + cnt oslist "non-mc-capable" d.
Proof. intros H%load_counts_balanced. apply H. Qed.

Lemma exact_versions_sum_capability_witness :
  ∃ oslist, load_counts wb_sample = Ok oslist ∧
  sum_over is_exact (Date 2020 1 1) oslist
  = cnt oslist "mc-capable" (Date 2020 1 1) + cnt oslist "non-mc-capable" (Date 2020 1 1).
Proof.
  run (load_counts wb_sample) o H. exists o. split; [exact H|].
  exact (exact_versions_sum_capability wb_sample _ _ H).
Defined.

(** What the sample adds up to, computed. *)
Example sample_totals :
  (m ← load_counts wb_sample;
   Ok (sum_over is_exact (Date 2020 1 2) m, cnt m "1.x" (Date 2020 1 2),
       cnt m "2.x" (Date 2020 1 2), cnt m "mc-capable" (Date 2020 1 2),
       cnt m "non-mc-capable" (Date 2020 1 2)))
  = Ok (12, 0, 12, 5, 7).
Proof. vm_compute. reflexivity. Qed.

(** Two daily sheets with a row of 5 for 2.12.0 each. *)
Example sample_series :
  (m ← load_counts wb_sample; Ok (m !! "2.12.0"))
  = Ok (Some [(Date 2020 1 1, 5); (Date 2020 1 2, 5)]).
Proof. vm_compute. reflexivity. Qed.

(** ** Claims about one row *)

Lemma major_version_starts_with (version maj : string) :
  major_version version = Ok maj →
  maj = if starts_with "2" version then "2.x" else "1.x".
Proof. destruct version as [|c s]; simpl; [discriminate|]. by intros [= <-]. Qed.

(** C4 (amended): a counted row adds its count to 2.x when its version
    string starts with the character 2, and to 1.x otherwise; the other
    of the two keys is left as it was. *)
Theorem major_version_by_first_char (dd : date) (oslist : gmap string series)
    (r : row) (oslist' : gmap string series) (d : date) :
  count_row dd oslist r = Ok oslist' →
  if starts_with "2" (col0 r)
  then cnt oslist' "2.x" d = cnt oslist "2.x" d + on_date d dd (col2 r)
       ∧ cnt oslist' "1.x" d = cnt oslist "1.x" d
  else cnt oslist' "1.x" d = cnt oslist "1.x" d + on_date d dd (col2 r)
       ∧ cnt oslist' "2.x" d = cnt oslist "2.x" d.
Proof.
  intros Hrow. rewrite !(cnt_count_row _ _ _ _ _ d Hrow).
  apply count_row_Ok in Hrow as (maj & cap & _ & _ & Hkeys & _).
  rewrite !(contribution_extra r maj cap) by (done || in_extra).
  apply row_keys_Ok in Hkeys as (? & ? & [= <- <-] & Hmaj & _ & _ & _ & Hc).
  apply major_version_starts_with in Hmaj.
  destruct (starts_with "2" (col0 r)); subst maj; destruct Hc as [->| ->];
    vm_compute bool_decide; cbv iota; unfold on_date; split; try lia;
    case_bool_decide; lia.
Qed.

Lemma major_version_by_first_char_witness :
  ∃ oslist oslist',
    count_row (Date 2020 1 1) oslist (Row "3.0.0" 5) = Ok oslist'
    ∧ cnt oslist' "1.x" (Date 2020 1 1)
      = cnt oslist "1.x" (Date 2020 1 1) + on_date (Date 2020 1 1) (Date 2020 1 1) 5
    ∧ cnt oslist' "2.x" (Date 2020 1 1) = cnt oslist "2.x" (Date 2020 1 1).
Proof.
  exists (known_versions [(Date 2020 1 1, 0)] (Sheet "OSVer" [hdr; Row "3.0.0" 0])).
  run (count_row (Date 2020 1 1)
         (known_versions [(Date 2020 1 1, 0)] (Sheet "OSVer" [hdr; Row "3.0.0" 0]))
         (Row "3.0.0" 5)) o H.
  exists o. split; [exact H|].
  exact (major_version_by_first_char _ _ _ _ (Date 2020 1 1) H).
Defined.

(** C4 as stated fails: 3.0.0 does not start with 1, and its count goes
    to 1.x, not to 2.x. *)
Lemma version_three_counts_as_1x :
  starts_with "1" "3.0.0" = false
  ∧ (m ← load_counts wb_three;
     Ok (cnt m "1.x" (Date 2020 1 1), cnt m "2.x" (Date 2020 1 1)))
    = Ok (5, 0).
Proof. split; vm_compute; reflexivity. Qed.

Lemma contribution_of_keys (version : string) (count : Z) (keys : list string) (k : string) :
  row_keys version = Ok keys →
  contribution k (Row version count) = if bool_decide (k ∈ keys) then count else 0.
Proof. unfold contribution. simpl. by intros ->. Qed.

(** C5: a counted row for 2.12.0 adds its count to 2.12.0, 2.x and
    mc-capable; one for 2.11.9 to 2.11.9, 2.x and non-mc-capable; one for
    1.8.0 to 1.8.0, 1.x and non-mc-capable; each to no other key. *)
Theorem boundary_versions (dd : date) (oslist : gmap string series) (count : Z)
    (oslist' : gmap string series) (k : string) (d : date) :
  (count_row dd oslist (Row "2.12.0" count) = Ok oslist' →
   cnt oslist' k d = cnt oslist k d
     + on_date d dd (if bool_decide (k ∈ ["2.12.0"; "2.x"; "mc-capable"])
                     then count else 0))
  ∧ (count_row dd oslist (Row "2.11.9" count) = Ok oslist' →
     cnt oslist' k d = cnt oslist k d
       + on_date d dd (if bool_decide (k ∈ ["2.11.9"; "2.x"; "non-mc-capable"])
                       then count else 0))
  ∧ (count_row dd oslist (Row "1.8.0" count) = Ok oslist' →
     cnt oslist' k d = cnt oslist k d
       + on_date d dd (if bool_decide (k ∈ ["1.8.0"; "1.x"; "non-mc-capable"])
                       then count else 0)).
Proof.
  repeat split; intros Hrow; rewrite (cnt_count_row _ _ _ _ _ d Hrow);
    do 2 f_equal; apply contribution_of_keys; vm_compute; reflexivity.
Qed.

Lemma boundary_versions_witness :
  ∃ oslist oslist',
    count_row (Date 2020 1 1) oslist (Row "2.12.0" 5) = Ok oslist'
    ∧ cnt oslist' "mc-capable" (Date 2020 1 1)
      = cnt oslist "mc-capable" (Date 2020 1 1)
        + on_date (Date 2020 1 1) (Date 2020 1 1)
            (if bool_decide ("mc-capable" ∈ ["2.12.0"; "2.x"; "mc-capable"])
             then 5 else 0).
Proof.
  exists (known_versions [(Date 2020 1 1, 0)] (Sheet "OSVer" [hdr; Row "2.12.0" 0])).
  run (count_row (Date 2020 1 1)
         (known_versions [(Date 2020 1 1, 0)] (Sheet "OSVer" [hdr; Row "2.12.0" 0]))
         (Row "2.12.0" 5)) o H.
  exists o. split; [exact H|].
  exact (proj1 (boundary_versions _ _ _ _ "mc-capable" (Date 2020 1 1)) H).
Defined.

(** The three rows on the sample workbook's first day. *)
Example boundary_versions_run :
  (m ← count_row (Date 2020 1 1)
         (known_versions [(Date 2020 1 1, 0)]
            (Sheet "OSVer" [hdr; Row "2.12.0" 0; Row "2.11.9" 0; Row "1.8.0" 0]))
         (Row "2.11.9" 7);
   Ok ((λ k, cnt m k (Date 2020 1 1)) <$> ["2.11.9"; "1.x"; "2.x"; "mc-capable";
                                            "non-mc-capable"]))
  = Ok [7; 0; 7; 0; 7].
Proof. vm_compute. reflexivity. Qed.

(** ** Claims about the cells *)

(** C9 (amended): in the mapping [load_counts] returns, the count of a
    key on a date is the sum of the counts of the daily rows of that date
    that count for the key, and so is the count of the one entry of that
    date when no two sheets share a date; no count is negative when no
    daily row has a negative count. *)
Theorem cells_are_sums (wb : workbook) (oslist : gmap string series) :
  load_counts wb = Ok oslist →
  (∀ k d, cnt oslist k d
          = Zsum (sheet_contribution wb k d) (drop 3 (sheet_names wb)))
  ∧ (∀ k arr d c,
       oslist !! k = Some arr → NoDup (arr.*1) → (d, c) ∈ arr →
       c = Zsum (sheet_contribution wb k d) (drop 3 (sheet_names wb)))
  ∧ ((∀ daily daily_sheet r,
        daily ∈ drop 3 (sheet_names wb) →
        sheet_by_name wb daily = Ok daily_sheet →
        r ∈ rows_from 2 daily_sheet → 0 ≤ col2 r) →
     ∀ k arr e, oslist !! k = Some arr → e ∈ arr → 0 ≤ e.2).
Proof.
  intros (dates & ossheet & Hd & _ & H)%load_counts_Ok.
  assert (∀ k d, cnt oslist k d
                 = Zsum (sheet_contribution wb k d) (drop 3 (sheet_names wb)))
    as Hcnt.
  { intros k d.
    rewrite <- (Z.add_0_l (Zsum _ _)),
      <- (cnt_known_versions _ dates ossheet k d Hd).
    revert H. apply (for_each_Zsum (λ o, cnt o k d)).
    intros s n s' Hn. by apply cnt_count_sheet. }
  split; [done|]. split.
  - intros k arr d c Hk Hnd Hin. rewrite <- Hcnt. unfold cnt. rewrite Hk. simpl.
    symmetry. by apply count_on_NoDup.
  - intros Hpos.
    enough (nonneg oslist) as Hnn.
    { intros k arr e Hk He. specialize (Hnn k arr Hk).
      rewrite Forall_forall in Hnn. by apply Hnn. }
    revert H. apply for_each_invariant.
    + intros s n s' Hn Hs (sh & dd & Hsh & _ & Hrows)%count_sheet_Ok.
      revert Hrows. apply for_each_invariant; [|done].
      intros s1 r s2 Hr Hs1. apply nonneg_count_row; [|done]. by eapply Hpos.
    + intros k arr. rewrite known_versions_lookup. case_bool_decide; [|done].
      intros [= <-]. apply empty_dates_Ok in Hd.
      clear -Hd. induction Hd as [|n e ns es [_ He] _ IH]; constructor; [lia|done].
Qed.

Lemma cells_are_sums_witness :
  ∃ oslist, load_counts wb_sample = Ok oslist ∧
  cnt oslist "2.x" (Date 2020 1 2)
  = Zsum (sheet_contribution wb_sample "2.x" (Date 2020 1 2))
      (drop 3 (sheet_names wb_sample)).
Proof.
  run (load_counts wb_sample) o H. exists o. split; [exact H|].
  exact (proj1 (cells_are_sums wb_sample o H) "2.x" (Date 2020 1 2)).
Defined.

(** C9 as stated fails: a daily count of -5 leaves a cell at -5. *)
Lemma negative_count_kept :
  (m ← load_counts wb_negative; Ok (m !! "2.12.0"))
  = Ok (Some [(Date 2020 1 1, -5)]).
Proof. vm_compute. reflexivity. Qed.

(** ** Claims about errors *)

Ltac in_list :=
  repeat first [apply list_elem_of_here | apply list_elem_of_further].

Example malformed_run :
  is_Ok (load_counts wb_malformed) = false
  ∧ (m ← load_counts wb_malformed; Ok (dom m))
    = Raise (ValueError not_valid_SemVer).
Proof. split; vm_compute; reflexivity. Qed.



Example unknown_run :
  (m ← load_counts wb_unknown; Ok (dom m)) = Raise (KeyError "2.13.0").
Proof. vm_compute. reflexivity. Qed.


(** ** Claims about the catalog *)

Lemma all_keys_collide (ossheet : sheet) :
  ¬ NoDup (catalog ossheet) ∨ (∃ k, k ∈ catalog ossheet ∧ k ∈ extra_versions) →
  ¬ NoDup (all_keys ossheet).
Proof.
  unfold all_keys. rewrite NoDup_app. intros [Hdup|(k & Hk & Hx)] (Hnd & Hdisj & _).
  - contradiction.
  - by apply (Hdisj k).
Qed.

(** C10 (amended): when the catalog sheet repeats a string or lists one
    of the four derived keys, building the mapping still goes through:
    every key holds the zero template and there are fewer than V+4 keys,
    also in the mapping [load_counts] returns.  No returned mapping holds
    counts of a daily row whose version is a derived key: such a row
    raises, so that nothing is conflated. *)
Theorem colliding_catalog (wb : workbook) (ossheet : sheet) :
  sheet_by_name wb "OSVer" = Ok ossheet →
  ¬ NoDup (catalog ossheet) ∨ (∃ k, k ∈ catalog ossheet ∧ k ∈ extra_versions) →
  (∀ dates k, k ∈ all_keys ossheet → known_versions dates ossheet !! k = Some dates)
  ∧ (∀ dates, size (known_versions dates ossheet) < length (catalog ossheet) + 4)%nat
  ∧ (∀ oslist, load_counts wb = Ok oslist →
       (size oslist < length (catalog ossheet) + 4)%nat
       ∧ ∀ daily daily_sheet r,
           daily ∈ drop 3 (sheet_names wb) →
           sheet_by_name wb daily = Ok daily_sheet →
           r ∈ rows_from 2 daily_sheet →
           col0 r ∉ extra_versions)
  ∧ (∀ daily daily_sheet r,
       daily ∈ drop 3 (sheet_names wb) →
       sheet_by_name wb daily = Ok daily_sheet →
       r ∈ rows_from 2 daily_sheet →
       col0 r ∈ extra_versions →
       fails (load_counts wb)).
Proof.
  intros Hos Hcol%all_keys_collide.
  assert (∀ oslist daily daily_sheet r,
            load_counts wb = Ok oslist →
            daily ∈ drop 3 (sheet_names wb) →
            sheet_by_name wb daily = Ok daily_sheet →
            r ∈ rows_from 2 daily_sheet →
            col0 r ∉ extra_versions) as Hrows.
  { intros o daily sh r Ho Hdaily Hsh Hr.
    destruct (load_counts_rows _ _ _ _ _ Ho Hdaily Hsh Hr) as (dd & o1 & o2 & _ & H).
    apply count_row_Ok in H as (maj & cap & _ & _ & Hkeys & _).
    by apply row_keys_Ok in Hkeys as (? & ? & _ & _ & _ & Hv & _). }
  split; [|split; [|split]].
  - intros dates k Hk. rewrite known_versions_lookup. by rewrite bool_decide_eq_true_2.
  - intros dates.
    assert (size (known_versions dates ossheet) = size (dom (known_versions dates ossheet)))
      as -> by (symmetry; apply size_dom).
    rewrite dom_known_versions, <- length_all_keys. by apply size_list_to_set_lt.
  - intros o Ho. split; [|intros daily sh r; by apply (Hrows o)].
    apply load_counts_shape in Ho as (dates & ossheet' & _ & Hos' & Hdom & _).
    rewrite Hos in Hos'. injection Hos' as <-.
    assert (size o = size (dom o)) as -> by (symmetry; apply size_dom).
    rewrite Hdom, <- length_all_keys. by apply size_list_to_set_lt.
  - intros daily sh r Hdaily Hsh Hr Hx. apply not_Ok_fails. intros o Ho.
    by apply (Hrows o daily sh r).
Qed.

Lemma colliding_catalog_witness :
  ∃ oslist, load_counts wb_duplicate = Ok oslist ∧ (size oslist < 2 + 4)%nat.
Proof.
  run (load_counts wb_duplicate) o H. exists o. split; [exact H|].
  assert (¬ NoDup (catalog (Sheet "OSVer" [hdr; Row "2.12.0" 0; Row "2.12.0" 0]))
          ∨ (∃ k, k ∈ catalog (Sheet "OSVer" [hdr; Row "2.12.0" 0; Row "2.12.0" 0])
                  ∧ k ∈ extra_versions)) as Hdup.
  { left. vm_compute. intros [Hnin _]%NoDup_cons. apply Hnin. in_list. }
  destruct (colliding_catalog wb_duplicate
              (Sheet "OSVer" [hdr; Row "2.12.0" 0; Row "2.12.0" 0])
              ltac:(vm_compute; reflexivity) Hdup) as (_ & _ & Hload & _).
  exact (proj1 (Hload o H)).
Defined.

(** C10 as stated fails: with 2.x in the catalog and in a daily row,
    [load_counts] raises instead of returning conflated counts. *)
Lemma collision_row_raises :
  "2.x" ∈ catalog (Sheet "OSVer" [hdr; Row "2.12.0" 0; Row "2.x" 0])
  ∧ "2.x" ∈ extra_versions
  ∧ sheet_by_name wb_collision "OSVer"
    = Ok (Sheet "OSVer" [hdr; Row "2.12.0" 0; Row "2.x" 0])
  ∧ (m ← load_counts wb_collision; Ok (dom m)) = Raise (ValueError not_valid_SemVer).
Proof.
  split; [vm_compute; in_list|]. split; [in_extra|].
  split; vm_compute; reflexivity.
Qed.

(** ** Claims about [get_date] *)

(** C8 (amended): [get_date] returns the date of every YYYYMMDD string of
    a real calendar date (years 1 to 9999); it raises a format error on
    every string of eight digits whose fields are not such a date, on
    every string shorter than six or longer than eight characters, and on
    every string with a character that is neither a digit nor a blank.
    (Strings of six or seven characters can be accepted.) *)
Theorem get_date_roundtrip (s : string) :
  (∀ dt, valid_date (year dt) (month dt) (day dt) = true →
         s = format_Ymd dt → get_date s = Ok dt)
  ∧ (String.length s = 8%nat → string_forallb is_digit s = true →
     valid_date (field 0 4 s) (field 4 2 s) (field 6 2 s) = false →
     ∃ err, get_date s = Raise err ∧ is_FormatError err)
  ∧ ((String.length s < 6)%nat ∨ (8 < String.length s)%nat
     ∨ string_forallb digit_or_blank s = false →
     ∃ err, get_date s = Raise err ∧ is_FormatError err).
Proof.
  split; [|split].
  - intros dt Hv ->. by apply get_date_format_Ymd.
  - intros Hlen Hdig.
    destruct s as [|a [|b [|c [|e [|f [|g [|h [|i [|]]]]]]]]]; try discriminate Hlen.
    simpl in Hdig.
    repeat (apply andb_prop in Hdig as [? Hdig]).
    destruct (get_date_eight_digits a b c e f g h i) as [_ Hbad]; try done.
    unfold field, int. simpl substring.
    intros Hv. apply Hbad. rewrite <- Hv. f_equal; lia.
  - intros Hbad. destruct (get_date s) as [dt|err] eqn:Hget.
    + apply get_date_Ok_shape in Hget as (_ & Hlen & Hchars).
      destruct Hbad as [?|[?|?]]; [lia|lia|congruence].
    + exists err. split; [done|]. by eapply get_date_Raise.
Qed.

Lemma get_date_roundtrip_witness :
  get_date "20200229" = Ok (Date 2020 2 29)
  ∧ (∃ err, get_date "20210229" = Raise err ∧ is_FormatError err)
  ∧ (∃ err, get_date "2020-02-29" = Raise err ∧ is_FormatError err).
Proof.
  split; [|split].
  - apply (proj1 (get_date_roundtrip "20200229") (Date 2020 2 29));
      vm_compute; reflexivity.
  - apply (proj1 (proj2 (get_date_roundtrip "20210229"))); vm_compute; reflexivity.
  - apply (proj2 (proj2 (get_date_roundtrip "2020-02-29"))).
    right; left. vm_compute. lia.
Defined.

(** C8 as stated fails: 202011 has six characters, not eight, and is read
    as 1 January 2020. *)
Lemma get_date_accepts_six_characters :
  String.length "202011" = 6%nat ∧ get_date "202011" = Ok (Date 2020 1 1).
Proof. split; reflexivity. Qed.

(** * More of the script *)

(** ** Dates, once more *)

Lemma digit_val_range (c : ascii) : is_digit c = true → 0 ≤ digit_val c ≤ 9.
Proof.
  intros H%is_digit_digits. unfold digits in H.
  repeat (apply elem_of_cons in H as [->|H]; [vm_compute; split; discriminate|]).
  by apply elem_of_nil in H.
Qed.

Lemma digit_char_val (c : ascii) : is_digit c = true → digit_char (digit_val c) = c.
Proof.
  intros H%is_digit_digits. unfold digits in H.
  repeat (apply elem_of_cons in H as [->|H]; [by vm_compute|]).
  by apply elem_of_nil in H.
Qed.

Lemma two_digits_val (a b : ascii) (rest : string) :
  is_digit a = true → is_digit b = true →
  two_digits (10 * digit_val a + digit_val b) rest = String a (String b rest).
Proof.
  intros Ha Hb. unfold two_digits.
  pose proof (digit_val_range a Ha). pose proof (digit_val_range b Hb).
  replace ((10 * digit_val a + digit_val b) / 10) with (digit_val a)
    by (Z.div_mod_to_equations; lia).
  replace ((10 * digit_val a + digit_val b) mod 10) with (digit_val b)
    by (Z.div_mod_to_equations; lia).
  by rewrite !digit_char_val.
Qed.

(** X1: what [get_date] returns is a real calendar date, and for a string
    of eight digits writing that date as YYYYMMDD gives the string back. *)
Theorem get_date_then_format (s : string) (dt : date) :
  get_date s = Ok dt →
  valid_date (year dt) (month dt) (day dt) = true
  ∧ (String.length s = 8%nat → string_forallb is_digit s = true →
     format_Ymd dt = s).
Proof.
  intros Hget. split; [by apply get_date_Ok_shape in Hget as (? & _)|].
  intros Hlen Hdig.
  destruct s as [|a [|b [|c [|e [|f [|g [|h [|i [|]]]]]]]]]; try discriminate Hlen.
  simpl in Hdig. repeat (apply andb_prop in Hdig as [? Hdig]).
  destruct (get_date_eight_digits a b c e f g h i) as [Hok Hbad]; try done.
  cbv zeta in Hok, Hbad.
  destruct (valid_date _ _ _) eqn:Hv;
    [|destruct (Hbad eq_refl) as (err & Herr & _); congruence].
  rewrite (Hok eq_refl) in Hget. injection Hget as <-.
  unfold format_Ymd. simpl year; simpl month; simpl day.
  pose proof (digit_val_range a). pose proof (digit_val_range b).
  pose proof (digit_val_range c). pose proof (digit_val_range e).
  replace ((1000 * digit_val a + 100 * digit_val b + 10 * digit_val c + digit_val e) / 100)
    with (10 * digit_val a + digit_val b) by (Z.div_mod_to_equations; lia).
  replace ((1000 * digit_val a + 100 * digit_val b + 10 * digit_val c + digit_val e) mod 100)
    with (10 * digit_val c + digit_val e) by (Z.div_mod_to_equations; lia).
  by rewrite !two_digits_val.
Qed.

Lemma get_date_then_format_witness :
  valid_date 2020 2 29 = true ∧ format_Ymd (Date 2020 2 29) = "20200229".
Proof.
  destruct (get_date_then_format "20200229" (Date 2020 2 29)
              ltac:(vm_compute; reflexivity)) as [Hv Hs].
  split; [exact Hv|]. apply Hs; vm_compute; reflexivity.
Defined.

(** ** The capability test *)

Lemma span_forallb (p : ascii → bool) (s a b : string) :
  span p s = (a, b) → string_forallb p a = true.
Proof.
  revert a b. induction s as [|c s IH]; intros a b; simpl.
  - by intros [= <- <-].
  - destruct (p c) eqn:Hc; [|by intros [= <- <-]].
    destruct (span p s) as [a' b'] eqn:Hs. intros [= <- <-]. simpl.
    rewrite Hc. simpl. by eapply IH.
Qed.

Lemma int_nonneg (text : string) :
  string_forallb is_digit text = true → 0 ≤ int text.
Proof.
  unfold int. intros Hd.
  enough (∀ acc, 0 ≤ acc →
            0 ≤ (fix go (acc : Z) (s : string) : Z :=
                   match s with
                   | EmptyString => acc
                   | String c s' => go (10 * acc + digit_val c) s'
                   end) acc text) as Hgen by (apply Hgen; lia).
  induction text as [|c s IH]; intros acc Hacc; simpl in *; [done|].
  apply andb_prop in Hd as [Hc Hd]. apply IH; [done|].
  pose proof (digit_val_range c Hc). lia.
Qed.

Lemma numeric_nonneg (s rest : string) (n : Z) :
  Semver.numeric s = Some (n, rest) → 0 ≤ n.
Proof.
  unfold Semver.numeric. destruct (span is_digit s) as [ds r] eqn:Hs.
  apply span_forallb in Hs. destruct ds as [|c ds']; [discriminate|].
  destruct (_ && _); [discriminate|]. intros [= <- _]. by apply int_nonneg.
Qed.

Lemma tail_prerelease (s pre : string) (bld : option string) :
  Semver.tail s = Some (Some pre, bld) → pre ≠ EmptyString.
Proof.
  unfold Semver.tail. destruct s as [|c r]; [discriminate|].
  destruct (Ascii.eqb c "-").
  - destruct (span _ r) as [p r'].
    destruct (forallb _ _) eqn:Hall; [|discriminate].
    destruct (Semver.build_part r'); simpl; [|discriminate].
    intros [= <- _] ->. discriminate Hall.
  - destruct (Semver.build_part _); simpl; discriminate.
Qed.

(** What [semver.parse] returns has a patch number that is not negative
    and, when it has a prerelease part, one that is not empty. *)
Lemma parse_Ok (version : string) (vi : Semver.version_info) :
  Semver.parse version = Ok vi →
  0 ≤ Semver.patch vi ∧ Semver.prerelease vi ≠ Some EmptyString.
Proof.
  unfold Semver.parse.
  destruct (Semver.numeric (Semver.chomp version)) as [[maj s1]|]; simpl; [|discriminate].
  destruct (Semver.dot s1) as [s2|]; simpl; [|discriminate].
  destruct (Semver.numeric s2) as [[min s3]|]; simpl; [|discriminate].
  destruct (Semver.dot s3) as [s4|]; simpl; [|discriminate].
  destruct (Semver.numeric s4) as [[pat s5]|] eqn:Hpat; simpl; [|discriminate].
  destruct (Semver.tail s5) as [[pre bld]|] eqn:Htail; simpl; [|discriminate].
  intros [= <-]. simpl. split; [by eapply numeric_nonneg|].
  destruct pre as [pre|]; [|done]. apply tail_prerelease in Htail. congruence.
Qed.

Lemma compare_with_2_12_0 (vi : Semver.version_info) :
  0 ≤ Semver.patch vi → Semver.prerelease vi ≠ Some EmptyString →
  Semver.compare_by_keys vi v2_12_0 ∈ [0; 1] ↔ from_2_12_0 vi.
Proof.
  destruct vi as [maj min pat pre bld]. unfold from_2_12_0. simpl. intros Hpat Hpre.
  destruct (decide (maj = 2 ∧ min = 12 ∧ pat = 0)) as [(-> & -> & ->)|Hne].
  - destruct pre as [pre|].
    + rewrite prerelease_of_2_12_0 by congruence.
      rewrite !elem_of_cons, elem_of_nil. split; [lia|].
      intros [?|(_ & [?|(_ & [?|(_ & ?)])])]; (lia || discriminate).
    + split; [intros _; right; split; [done|]; right; split; [done|]; by right|].
      intros _. vm_compute. apply list_elem_of_here.
  - unfold Semver.compare_by_keys, Semver.cmp. simpl.
    rewrite !elem_of_cons, elem_of_nil.
    repeat match goal with
           | |- context [?a <? ?b] => destruct (Z.ltb_spec a b)
           end; simpl; lia.
Qed.

(** X2: for a version that [semver] parses, the capability key is
    mc-capable exactly from 2.12.0 on in semantic-version order (a
    prerelease of 2.12.0 comes before it, build metadata does not count),
    and non-mc-capable otherwise. *)
Theorem capability_from_2_12_0 (version : string) (vi : Semver.version_info) :
  Semver.parse version = Ok vi →
  (mc_capability version = Ok "mc-capable" ↔ from_2_12_0 vi)
  ∧ (mc_capability version = Ok "non-mc-capable" ↔ ¬ from_2_12_0 vi).
Proof.
  intros Hp. destruct (parse_Ok _ _ Hp) as [Hpat Hpre].
  rewrite mc_capability_parse, Hp. simpl.
  pose proof (compare_with_2_12_0 vi Hpat Hpre) as Hiff.
  case_bool_decide as Hc; split; split; intros H; try done;
    try discriminate H; tauto.
Qed.

Lemma capability_from_2_12_0_witness :
  mc_capability "2.12.1-rc1+b7" = Ok "mc-capable"
  ∧ mc_capability "2.12.0-rc1" = Ok "non-mc-capable".
Proof.
  split.
  - apply (proj1 (capability_from_2_12_0 "2.12.1-rc1+b7"
                    (Semver.VersionInfo 2 12 1 (Some "rc1") (Some "b7"))
                    ltac:(vm_compute; reflexivity))).
    unfold from_2_12_0. simpl. lia.
  - apply (proj2 (capability_from_2_12_0 "2.12.0-rc1"
                    (Semver.VersionInfo 2 12 0 (Some "rc1") None)
                    ltac:(vm_compute; reflexivity))).
    unfold from_2_12_0. simpl.
    intros [?|(_ & [?|(_ & [?|(_ & ?)])])]; (lia || discriminate).
Defined.

(** ** When [load_counts] returns *)

Section progress.

Implicit Types (d dd : date) (oslist : gmap string series) (r : row)
  (wb : workbook) (dates arr : series).

(** [where_first] finds the first row with the date. *)
Lemma where_first_Ok arr d i :
  where_first arr d = Ok i →
  (∃ c, arr !! i = Some (d, c))
  ∧ ∀ j e, (j < i)%nat → arr !! j = Some e → e.1 ≠ d.
Proof.
  revert i. induction arr as [|[d' x] arr IH]; intros i; simpl; [discriminate|].
  destruct (bool_decide_reflect (d' = d)) as [->|Hne].
  - intros [= <-]. split; [by exists x|]. intros j e Hj. lia.
  - intros Hi. apply bind_Ok in Hi as (i' & Hi' & [= <-]).
    destruct (IH i' Hi') as [Hat Hbefore]. split; [done|].
    intros [|j] e Hj; simpl; [by intros [= <-]|]. apply Hbefore. lia.
Qed.



(** An update leaves the series of every other key alone. *)
Lemma up_count_lookup_ne key dd count oslist oslist' (k : string) :
  up_count key dd count oslist = Ok oslist' → k ≠ key →
  oslist' !! k = oslist !! k.
Proof.
  intros (arr & i & _ & _ & ->)%up_count_Ok Hk. by rewrite lookup_insert_ne.
Qed.

Lemma for_each_succeeds {A S} (P : S → Prop) (body : S → A → result S) xs :
  (∀ s x, x ∈ xs → P s → ∃ s', body s x = Ok s' ∧ P s') →
  ∀ s, P s → ∃ s', for_each body xs s = Ok s' ∧ P s'.
Proof.
  induction xs as [|x xs IH]; intros Hbody s Hs; simpl; [by eauto|].
  destruct (Hbody s x (list_elem_of_here _ _) Hs) as (s1 & -> & Hs1). simpl.
  apply IH; [|done]. intros s' y Hy. apply Hbody. by apply list_elem_of_further.
Qed.

(** A loop raises as soon as one element makes the body raise whatever
    the state. *)
Lemma for_each_fails {A S} (body : S → A → result S) xs (x : A) :
  x ∈ xs → (∀ s, fails (body s x)) → ∀ s, fails (for_each body xs s).
Proof.
  intros Hx Hfail. induction xs as [|y xs IH]; intros s; [by apply elem_of_nil in Hx|].
  simpl. destruct (body s y) as [s'|e] eqn:Hy; simpl; [|by eexists].
  apply elem_of_cons in Hx as [->|Hx]; [|by apply IH].
  destruct (Hfail s) as [e He]. congruence.
Qed.

Lemma empty_dates_succeeds (date_sheets : list string) :
  (∀ n, n ∈ date_sheets → succeeds (get_date n)) →
  succeeds (empty_dates date_sheets).
Proof.
  intros Hall. unfold empty_dates.
  destruct (for_each_succeeds (λ _, True)
              (λ dates n, d ← get_date n; Ok (dates ++ [(d, 0)])%list) date_sheets)
    with (s := @nil (date * Z)) as (dates & H & _); [|done|by eexists].
  intros s n Hn _. destruct (Hall n Hn) as [d ->]. simpl. by eexists.
Qed.




End progress.

(** ** The row that does not parse *)











(** ** When [load_counts] raises *)



(** X5: when the name of a sheet after the third is no date,
    [load_counts] raises a format error, whatever else the workbook
    holds: the names are all read before any sheet is. *)
Theorem bad_sheet_name_raises (wb : workbook) (n : string) :
  n ∈ drop 3 (sheet_names wb) → fails (get_date n) →
  ∃ e, load_counts wb = Raise e ∧ is_FormatError e.
Proof.
  intros Hn Hfail.
  destruct (for_each_fails
              (λ (dates : series) n, d ← get_date n; Ok (dates ++ [(d, 0)])%list)
              (drop 3 (sheet_names wb)) n Hn) with (s := @nil (date * Z))
    as [e He].
  { intros s. destruct Hfail as [e' ->]. by eexists. }
  exists e. unfold load_counts, empty_dates. rewrite He. split; [done|].
  apply for_each_Raise in He as (n' & s & _ & He).
  apply bind_Raise in He as [He|(d & _ & He)]; [|discriminate].
  by eapply get_date_Raise.
Qed.

Lemma bad_sheet_name_raises_witness :
  ∃ e, load_counts wb_bad_name = Raise e ∧ is_FormatError e.
Proof.
  apply (bad_sheet_name_raises wb_bad_name "Notes").
  - vm_compute. in_list.
  - eexists. vm_compute. reflexivity.
Defined.

Lemma sheet_by_name_not_in (wb : workbook) (n : string) :
  n ∉ sheet_names wb → sheet_by_name wb n = Raise (XLRDError n).
Proof.
  unfold sheet_by_name, sheet_names.
  induction wb as [|sh wb IH]; simpl; [done|].
  intros Hn. apply not_elem_of_cons in Hn as [Hne Hn].
  rewrite bool_decide_eq_false_2 by congruence. by apply IH.
Qed.

(** X6: when the sheet names after the third are dates and no sheet is
    named OSVer, [load_counts] raises the [XLRDError] of that name: the
    catalog is found by name, not by position. *)
Theorem missing_catalog_raises (wb : workbook) :
  (∀ n, n ∈ drop 3 (sheet_names wb) → succeeds (get_date n)) →
  "OSVer" ∉ sheet_names wb →
  load_counts wb = Raise (XLRDError "OSVer").
Proof.
  intros [dates Hd]%empty_dates_succeeds Hos%sheet_by_name_not_in.
  unfold load_counts. rewrite Hd. simpl. by rewrite Hos.
Qed.

Lemma missing_catalog_raises_witness :
  load_counts wb_no_catalog = Raise (XLRDError "OSVer").
Proof.
  apply missing_catalog_raises.
  - intros n Hn. vm_compute in Hn.
    repeat (apply elem_of_cons in Hn as [->|Hn]; [eexists; vm_compute; reflexivity|]).
    by apply elem_of_nil in Hn.
  - vm_compute. intros H.
    repeat (apply elem_of_cons in H as [H|H]; [discriminate H|]).
    by apply elem_of_nil in H.
Defined.



(** ** What the counts add up to *)

Section totals.

Implicit Types (d dd : date) (oslist : gmap string series) (r : row)
  (wb : workbook) (dates arr : series).

Lemma sum_exact_count_row dd oslist r oslist' d :
  count_row dd oslist r = Ok oslist' →
  sum_over is_exact d oslist' = sum_over is_exact d oslist + on_date d dd (col2 r).
Proof.
  intros Hrow.
  destruct (sum_over_count_row is_exact _ _ _ _ d Hrow) as (maj & cap & Hkeys & ->).
  apply row_keys_Ok in Hkeys as (? & ? & [= <- <-] & _ & _ & Hv & Hm & Hc).
  assert (is_exact (col0 r) = true) as -> by (by apply bool_decide_eq_true_2).
  assert (is_exact maj = false) as -> by (destruct Hm as [->| ->]; reflexivity).
  assert (is_exact cap = false) as -> by (destruct Hc as [->| ->]; reflexivity).
  lia.
Qed.

Lemma sum_exact_count_sheet wb oslist daily oslist' d :
  count_sheet wb oslist daily = Ok oslist' →
  sum_over is_exact d oslist' = sum_over is_exact d oslist + sheet_total wb d daily.
Proof.
  intros (sh & dd & Hs & Hd & H)%count_sheet_Ok.
  unfold sheet_total. rewrite Hs, Hd, <- Zsum_on_date.
  revert H. apply (for_each_Zsum (λ o, sum_over is_exact d o)).
  intros s r s' Hr. by apply sum_exact_count_row.
Qed.

(** The date of an entry that is found first stays where it was, with
    the other entries. *)
Lemma later_zero_add_count arr dd i count :
  where_first arr dd = Ok i → later_zero arr → later_zero (add_count arr i count).
Proof.
  intros Hi Hz. destruct (where_first_Ok _ _ _ Hi) as [[c Hat] Hbefore].
  unfold add_count. intros a b e1 e2 Hab Ha Hb Heq.
  destruct (decide (b = i)) as [->|Hbi].
  - (* the changed entry is the first of its date: nothing stands before it *)
    rewrite list_lookup_alter_ne in Ha by lia.
    rewrite list_lookup_alter_eq, Hat in Hb. simpl in Hb. injection Hb as <-.
    simpl in Heq. by destruct (Hbefore a e1 Hab Ha).
  - rewrite list_lookup_alter_ne in Hb by done.
    destruct (decide (a = i)) as [->|Hai].
    + rewrite list_lookup_alter_eq, Hat in Ha. simpl in Ha. injection Ha as <-.
      by apply (Hz i b (dd, c) e2).
    + rewrite list_lookup_alter_ne in Ha by done. by apply (Hz a b e1 e2).
Qed.

Lemma later_zero_up_count key dd count oslist oslist' :
  (∀ k arr, oslist !! k = Some arr → later_zero arr) →
  up_count key dd count oslist = Ok oslist' →
  ∀ k arr, oslist' !! k = Some arr → later_zero arr.
Proof.
  intros Hz (arr0 & i & Hk & Hi & ->)%up_count_Ok k arr.
  destruct (decide (k = key)) as [->|Hne].
  - rewrite lookup_insert_eq. intros [= <-].
    apply (later_zero_add_count _ dd); [done|by eapply Hz].
  - rewrite lookup_insert_ne by done. apply Hz.
Qed.

Lemma later_zero_count_row dd oslist r oslist' :
  (∀ k arr, oslist !! k = Some arr → later_zero arr) →
  count_row dd oslist r = Ok oslist' →
  ∀ k arr, oslist' !! k = Some arr → later_zero arr.
Proof.
  intros Hz (maj & cap & o1 & o2 & _ & H1 & H2 & H3)%count_row_Ok.
  eauto using later_zero_up_count.
Qed.

Lemma empty_dates_zeros (date_sheets : list string) dates :
  empty_dates date_sheets = Ok dates → Forall (λ e, e.2 = 0) dates.
Proof.
  intros H%empty_dates_Ok.
  induction H as [|n e ns es [_ He] _ IH]; by constructor.
Qed.

(** A row leaves alone the series of a key that is none of its three. *)
Lemma count_row_lookup_ne dd oslist r oslist' (k : string) :
  count_row dd oslist r = Ok oslist' →
  k ∉ extra_versions → k ≠ col0 r → oslist' !! k = oslist !! k.
Proof.
  intros (maj & cap & o1 & o2 & Hkeys & H1 & H2 & H3)%count_row_Ok Hx Hk.
  apply row_keys_Ok in Hkeys as (? & ? & [= <- <-] & _ & _ & _ & Hm & Hc).
  rewrite (up_count_lookup_ne _ _ _ _ _ k H3), (up_count_lookup_ne _ _ _ _ _ k H2),
    (up_count_lookup_ne _ _ _ _ _ k H1); [done|done|..].
  - intros ->. apply Hx. destruct Hm as [->| ->]; in_extra.
  - intros ->. apply Hx. destruct Hc as [->| ->]; in_extra.
Qed.

End totals.

(** X8: nothing is lost or counted twice among the exact versions: in the
    mapping [load_counts] returns, their counts on a date add up to the
    counts of all rows of the daily sheets of that date. *)
Theorem exact_versions_sum_rows (wb : workbook) (oslist : gmap string series)
    (d : date) :
  load_counts wb = Ok oslist →
  sum_over is_exact d oslist = Zsum (sheet_total wb d) (drop 3 (sheet_names wb)).
Proof.
  intros (dates & ossheet & Hd & _ & H)%load_counts_Ok.
  rewrite <- (Z.add_0_l (Zsum _ _)).
  assert (sum_over is_exact d (known_versions dates ossheet) = 0) as <-.
  { apply sum_over_zero. intros k arr. rewrite known_versions_lookup.
    case_bool_decide; [|done]. intros [= <-]. by eapply empty_dates_zero. }
  revert H. apply (for_each_Zsum (λ o, sum_over is_exact d o)).
  intros s n s' Hn. by apply sum_exact_count_sheet.
Qed.

Lemma exact_versions_sum_rows_witness :
  ∃ oslist, load_counts wb_sample = Ok oslist
            ∧ sum_over is_exact (Date 2020 1 2) oslist = 12.
Proof.
  run (load_counts wb_sample) o H. exists o. split; [exact H|].
  rewrite (exact_versions_sum_rows wb_sample o (Date 2020 1 2) H).
  vm_compute. reflexivity.
Defined.

(** X9: when two date sheets stand for the same day, their counts go to
    the entry of the first of them: in every series [load_counts]
    returns, an entry whose date stands earlier in the series too holds
    the count 0. *)
Theorem repeated_date_entry_stays_zero (wb : workbook)
    (oslist : gmap string series) :
  load_counts wb = Ok oslist →
  ∀ k arr i j e1 e2,
    oslist !! k = Some arr → (i < j)%nat →
    arr !! i = Some e1 → arr !! j = Some e2 → e1.1 = e2.1 → e2.2 = 0.
Proof.
  intros (dates & ossheet & Hd & _ & H)%load_counts_Ok.
  enough (∀ k arr, oslist !! k = Some arr → later_zero arr) as Hz.
  { intros k arr i j e1 e2 Hk. exact (Hz k arr Hk i j e1 e2). }
  revert H. apply (for_each_invariant (λ o, ∀ k arr, o !! k = Some arr → later_zero arr)).
  - intros s n s' _ Hs (sh & dd & _ & _ & Hrows)%count_sheet_Ok. revert Hrows.
    apply (for_each_invariant (λ o, ∀ k arr, o !! k = Some arr → later_zero arr));
      [|done].
    intros s1 r s2 _ Hs1 Hr. by eapply later_zero_count_row.
  - intros k arr. rewrite known_versions_lookup. case_bool_decide; [|done].
    intros [= <-] i j e1 e2 _ _ Hj _.
    apply empty_dates_zeros in Hd. rewrite Forall_forall in Hd.
    apply Hd. by eapply list_elem_of_lookup_2.
Qed.

Lemma repeated_date_entry_stays_zero_witness :
  ∃ oslist,
    load_counts wb_same_day = Ok oslist
    ∧ ∀ arr e1 e2,
        oslist !! "2.12.0" = Some arr →
        arr !! 0%nat = Some e1 → arr !! 1%nat = Some e2 →
        e1.1 = e2.1 → e2.2 = 0.
Proof.
  run (load_counts wb_same_day) o H. exists o. split; [exact H|].
  intros arr e1 e2 Hk.
  apply (repeated_date_entry_stays_zero wb_same_day o H "2.12.0" arr 0%nat 1%nat);
    [exact Hk|lia].
Defined.

(** The two sheets of 1 January 2020, with 5 and 7 devices. *)
Example same_day_run :
  (m ← load_counts wb_same_day; Ok (m !! "2.12.0"))
  = Ok (Some [(Date 2020 1 1, 12); (Date 2020 1 1, 0)]).
Proof. vm_compute. reflexivity. Qed.

(** X10: a catalog version that no daily row names keeps the zero
    template: every count of its series is 0 in the mapping
    [load_counts] returns. *)
Theorem idle_version_stays_zero (wb : workbook) (oslist : gmap string series)
    (k : string) :
  load_counts wb = Ok oslist →
  k ∉ extra_versions →
  (∀ daily daily_sheet r,
     daily ∈ drop 3 (sheet_names wb) →
     sheet_by_name wb daily = Ok daily_sheet →
     r ∈ rows_from 2 daily_sheet → col0 r ≠ k) →
  ∀ arr e, oslist !! k = Some arr → e ∈ arr → e.2 = 0.
Proof.
  intros (dates & ossheet & Hd & _ & H)%load_counts_Ok Hx Hrows.
  enough (oslist !! k = known_versions dates ossheet !! k) as Heq.
  { intros arr e. rewrite Heq, known_versions_lookup.
    case_bool_decide; [|done]. intros [= <-].
    apply empty_dates_zeros in Hd. rewrite Forall_forall in Hd. apply Hd. }
  revert H.
  apply (for_each_invariant (λ o, o !! k = known_versions dates ossheet !! k));
    [|done].
  intros s n s' Hn Hs (sh & dd & Hsh & _ & Hrs)%count_sheet_Ok. revert Hrs.
  apply (for_each_invariant (λ o, o !! k = known_versions dates ossheet !! k));
    [|done].
  intros s1 r s2 Hr Hs1 Hrow.
  rewrite (count_row_lookup_ne _ _ _ _ k Hrow); [done|done|].
  intros ->. by apply (Hrows n sh r).
Qed.

Lemma idle_version_stays_zero_witness :
  ∃ oslist, load_counts wb_idle_version = Ok oslist
            ∧ ∀ arr e, oslist !! "2.11.9" = Some arr → e ∈ arr → e.2 = 0.
Proof.
  run (load_counts wb_idle_version) o H. exists o. split; [exact H|].
  apply (idle_version_stays_zero wb_idle_version o "2.11.9" H).
  - vm_compute. intros Hin.
    repeat (apply elem_of_cons in Hin as [Hin|Hin]; [discriminate Hin|]).
    by apply elem_of_nil in Hin.
  - intros daily sh r Hd Hsh Hr. vm_compute in Hd.
    apply elem_of_cons in Hd as [->|Hd]; [|by apply elem_of_nil in Hd].
    vm_compute in Hsh. injection Hsh as <-. vm_compute in Hr.
    apply elem_of_cons in Hr as [->|Hr]; [|by apply elem_of_nil in Hr].
    discriminate.
Defined.

(** ** [plot_data] *)

Section plotting.

Implicit Types (items : list (string * series)) (sv : list string)
  (st : Plot.state) (item : string * series).

Lemma axis_of_cases (key : string) :
  (Plot.axis_of key = Plot.ax3 ↔ key ∈ Plot.mc_capability)
  ∧ (Plot.axis_of key = Plot.ax2 ↔ key ∈ Plot.major_versions)
  ∧ (Plot.axis_of key = Plot.ax1
     ↔ (key ∉ Plot.major_versions) ∧ (key ∉ Plot.mc_capability)).
Proof.
  unfold Plot.axis_of.
  assert (key ∈ Plot.major_versions → key ∉ Plot.mc_capability) as Hdisj.
  { unfold Plot.major_versions, Plot.mc_capability. intros Hm Hc.
    repeat (apply elem_of_cons in Hm as [->|Hm];
            [repeat (apply elem_of_cons in Hc as [Hc|Hc]; [discriminate Hc|]);
             by apply elem_of_nil in Hc|]).
    by apply elem_of_nil in Hm. }
  repeat case_bool_decide; repeat split; try done; try tauto;
    intros; exfalso; tauto.
Qed.

(** After one more key, seen from the state before it. *)
Lemma plot_key_spec sv st item :
  let st' := Plot.plot_key sv st item in
  Plot.counts st' = Some item.2
  ∧ ∃ l, Plot.plotted st' = (Plot.plotted st ++ [l])%list
         ∧ Plot.on l = Plot.axis_of item.1 ∧ drawn l = columns item.2
         ∧ if bool_decide (item.1 ∈ sv)
           then Plot.count st' = S (Plot.count st)
                ∧ l = highlight (Plot.count st) item
           else Plot.count st' = Plot.count st
                ∧ Plot.label l = None ∧ Plot.marker l = None
                ∧ Plot.linewidth l = 1 ∧ Plot.linestyle l = "--".
Proof.
  unfold Plot.plot_key. case_bool_decide; simpl; (split; [done|]);
    eexists; (split; [reflexivity|]); simpl; repeat split.
Qed.

Lemma loop_counts_from sv items st :
  Plot.counts (foldl (Plot.plot_key sv) st items)
  = match last items with
    | Some item => Some item.2
    | None => Plot.counts st
    end.
Proof.
  revert st. induction items as [|item items IH]; intros st; [done|].
  cbn [foldl]. rewrite IH. destruct items as [|item' items].
  - simpl. by destruct (plot_key_spec sv st item) as [-> _].
  - rewrite last_cons_cons. destruct (last (item' :: items)) eqn:Hl; [done|].
    by apply last_None in Hl.
Qed.

Lemma loop_drawn_from sv items st (ax : Plot.axes) :
  drawn <$> filter (λ l, Plot.on l = ax) (Plot.plotted (foldl (Plot.plot_key sv) st items))
  = ((drawn <$> filter (λ l, Plot.on l = ax) (Plot.plotted st))
     ++ (columns ∘ snd <$> filter (λ item, Plot.axis_of item.1 = ax) items))%list.
Proof.
  revert st. induction items as [|item items IH]; intros st.
  - cbn [foldl]. by rewrite filter_nil, fmap_nil, app_nil_r.
  - cbn [foldl]. rewrite IH.
    destruct (plot_key_spec sv st item) as (_ & l & -> & Hon & Hdrawn & _).
    rewrite filter_app, fmap_app, <- app_assoc. f_equal.
    rewrite !filter_cons, filter_nil, Hon.
    destruct (decide (Plot.axis_of item.1 = ax)); [|done].
    rewrite !fmap_cons, Hdrawn. done.
Qed.

Lemma loop_labelled_from sv items st :
  labelled (Plot.plotted (foldl (Plot.plot_key sv) st items))
  = (labelled (Plot.plotted st)
     ++ imap (λ j, highlight (Plot.count st + j))
          (filter (λ item, item.1 ∈ sv) items))%list.
Proof.
  unfold labelled. revert st. induction items as [|item items IH]; intros st.
  - cbn [foldl]. by rewrite filter_nil, imap_nil, app_nil_r.
  - cbn [foldl]. rewrite IH.
    destruct (plot_key_spec sv st item) as (_ & l & -> & _ & _ & Hl).
    rewrite filter_app, <- app_assoc. f_equal.
    rewrite !filter_cons, filter_nil.
    destruct (bool_decide_reflect (item.1 ∈ sv)) as [Hin|Hnin].
    + destruct Hl as [-> ->].
      rewrite !decide_True by (done || by eexists). rewrite imap_cons.
      simpl. rewrite Nat.add_0_r. f_equal.
      apply imap_ext. intros j x _. simpl. f_equal. lia.
    + destruct Hl as (-> & Hlab & _).
      rewrite !decide_False; [done|done|]. rewrite Hlab. by intros [? ?].
Qed.

Lemma loop_unlabelled_from sv items st :
  let plain := λ l, Plot.label l = None →
                    Plot.marker l = None ∧ Plot.linewidth l = 1
                    ∧ Plot.linestyle l = "--" in
  Forall plain (Plot.plotted st) →
  Forall plain (Plot.plotted (foldl (Plot.plot_key sv) st items)).
Proof.
  intros plain. revert st. induction items as [|item items IH]; intros st Hst; [done|].
  cbn [foldl]. apply IH.
  destruct (plot_key_spec sv st item) as (_ & l & -> & _ & _ & Hl).
  apply Forall_app. split; [done|]. apply Forall_singleton. intros Hlab.
  destruct (bool_decide (item.1 ∈ sv)).
  - destruct Hl as [_ ->]. discriminate Hlab.
  - by destruct Hl as (_ & _ & ? & ? & ?).
Qed.

End plotting.

(** X11: the keys of the highlight list get their markers in the order
    the loop meets them, counted across the three charts: the call for
    the [j]-th of them (from 0) passes the key as label, width 3, a solid
    line and [markers[j % 8]], so that the first has no marker and the
    ninth has the marker of the first. *)
Theorem markers_cycle (oslist : list (string * series))
    (special_versions : list string) (j : nat) (item : string * series) :
  filter (λ item, item.1 ∈ special_versions) oslist !! j = Some item →
  labelled (Plot.plotted (Plot.loop oslist special_versions)) !! j
  = Some (Plot.Line (Plot.axis_of item.1) (item.2.*1) (item.2.*2) 3 "-"
            (Some item.1) (nth (j mod 8) Plot.markers None)).
Proof.
  intros Hj. unfold Plot.loop. rewrite loop_labelled_from. simpl.
  rewrite list_lookup_imap, Hj. reflexivity.
Qed.

Lemma markers_cycle_witness :
  labelled (Plot.plotted (Plot.loop
     [("2.12.0", [(Date 2020 1 1, 5)]); ("2.11.9", [(Date 2020 1 1, 7)]);
      ("2.x", [(Date 2020 1 1, 12)])] ["2.x"; "2.12.0"])) !! 1%nat
  = Some (Plot.Line Plot.ax2 [Date 2020 1 1] [12] 3 "-" (Some "2.x") (Some "o")).
Proof.
  apply (markers_cycle
           [("2.12.0", [(Date 2020 1 1, 5)]); ("2.11.9", [(Date 2020 1 1, 7)]);
            ("2.x", [(Date 2020 1 1, 12)])] ["2.x"; "2.12.0"] 1
           ("2.x", [(Date 2020 1 1, 12)])).
  vm_compute. reflexivity.
Defined.

(** X12: a call without a label has no marker, width 1 and a dashed
    line, and the calls with a label are as many as the keys of the dict
    that are in the highlight list. *)
Theorem plain_and_highlighted (oslist : list (string * series))
    (special_versions : list string) :
  Forall (λ l, Plot.label l = None →
               Plot.marker l = None ∧ Plot.linewidth l = 1
               ∧ Plot.linestyle l = "--")
    (Plot.plotted (Plot.loop oslist special_versions))
  ∧ length (labelled (Plot.plotted (Plot.loop oslist special_versions)))
    = length (filter (λ item, item.1 ∈ special_versions) oslist).
Proof.
  split.
  - apply loop_unlabelled_from. simpl. constructor.
  - unfold Plot.loop. rewrite loop_labelled_from. simpl. by rewrite length_imap.
Qed.

(** X13: when [plot_data] shows its charts, each chart draws, in the
    order of the dict, the date and count columns of the keys of its
    group and of no other key: the capability chart those of mc-capable
    and non-mc-capable, the major-version chart those of 1.x and 2.x,
    the first chart those of all other keys. *)
Theorem charts_by_group (oslist : list (string * series))
    (special_versions : list string) (fig1 fig2 fig3 : Plot.figure) :
  Plot.plot_data oslist special_versions = Plot.Shown fig1 fig2 fig3 →
  drawn <$> Plot.lines fig3
  = (columns ∘ snd <$> filter (λ item, item.1 ∈ Plot.mc_capability) oslist)
  ∧ drawn <$> Plot.lines fig2
    = (columns ∘ snd <$> filter (λ item, item.1 ∈ Plot.major_versions) oslist)
  ∧ drawn <$> Plot.lines fig1
    = (columns ∘ snd
       <$> filter (λ item, (item.1 ∉ Plot.major_versions)
                           ∧ (item.1 ∉ Plot.mc_capability)) oslist).
Proof.
  unfold Plot.plot_data. destruct (Plot.XLIM _) as [e|xlim]; [discriminate|].
  intros [= <- <- <-]. unfold Plot.format_plot, Plot.loop. cbn [Plot.lines].
  rewrite !loop_drawn_from. cbn [Plot.plotted].
  rewrite !filter_nil, !fmap_nil, !app_nil_l.
  repeat split; f_equal; apply list_filter_iff; intros item;
    apply axis_of_cases.
Qed.

Lemma charts_by_group_witness :
  ∃ fig1 fig2 fig3,
    Plot.plot_data [("2.12.0", [(Date 2020 1 1, 5)]); ("2.x", [(Date 2020 1 1, 5)])]
      SPECIAL_VERSIONS = Plot.Shown fig1 fig2 fig3
    ∧ drawn <$> Plot.lines fig2 = [([Date 2020 1 1], [5])].
Proof.
  do 3 eexists. split; [vm_compute; reflexivity|].
  set (oslist := [("2.12.0", [(Date 2020 1 1, 5)]); ("2.x", [(Date 2020 1 1, 5)])]).
  destruct (charts_by_group oslist SPECIAL_VERSIONS _ _ _
              ltac:(vm_compute; reflexivity)) as (_ & H2 & _).
  vm_compute. reflexivity.
Defined.

(** What [plot_data] does, by the last key of the dict. *)
Lemma plot_data_last (oslist : list (string * series))
    (special_versions : list string) :
  match last oslist with
  | None => Plot.plot_data oslist special_versions = Plot.Raised Plot.UnboundLocalError
  | Some item =>
      match head item.2, last item.2 with
      | Some first, Some final =>
          ∃ fig1 fig2 fig3,
            Plot.plot_data oslist special_versions = Plot.Shown fig1 fig2 fig3
            ∧ Plot.xlim fig1 = (first.1, final.1)
            ∧ Plot.xlim fig2 = (first.1, final.1)
            ∧ Plot.xlim fig3 = (first.1, final.1)
      | _, _ => Plot.plot_data oslist special_versions = Plot.Raised Plot.IndexError
      end
  end.
Proof.
  unfold Plot.plot_data, Plot.loop. rewrite loop_counts_from.
  destruct (last oslist) as [item|]; [|reflexivity]. simpl.
  destruct (head item.2) as [first|]; [|reflexivity].
  destruct (last item.2) as [final|]; [|reflexivity].
  do 3 eexists. split; [reflexivity|]. by repeat split.
Qed.

(** X14: [plot_data] raises [UnboundLocalError] on an empty dict and
    [IndexError] when the series of the last key has no entry; in every
    other case it shows three charts with one x range, from the first to
    the last date of the series of the last key. *)
Theorem plot_data_outcome (oslist : list (string * series))
    (special_versions : list string) :
  match last oslist with
  | None => Plot.plot_data oslist special_versions = Plot.Raised Plot.UnboundLocalError
  | Some item =>
      match head item.2, last item.2 with
      | Some first, Some final =>
          ∃ fig1 fig2 fig3,
            Plot.plot_data oslist special_versions = Plot.Shown fig1 fig2 fig3
            ∧ Plot.xlim fig1 = (first.1, final.1)
            ∧ Plot.xlim fig2 = (first.1, final.1)
            ∧ Plot.xlim fig3 = (first.1, final.1)
      | _, _ => Plot.plot_data oslist special_versions = Plot.Raised Plot.IndexError
      end
  end.
Proof. apply plot_data_last. Qed.

(** ** From the workbook to the charts *)

Section script.

Implicit Types (oslist : gmap string series) (wb : workbook)
  (items : list (string * series)) (keys : list string).

Lemma dict_setitem_elem keys (k k' : string) :
  k' ∈ dict_setitem keys k ↔ k' ∈ keys ∨ k' = k.
Proof.
  unfold dict_setitem. case_bool_decide as Hk.
  - split; [by left|]. by intros [?| ->].
  - rewrite elem_of_app, list_elem_of_singleton. done.
Qed.

Lemma dict_setitem_NoDup keys (k : string) :
  NoDup keys → NoDup (dict_setitem keys k).
Proof.
  intros Hnd. unfold dict_setitem. case_bool_decide as Hk; [done|].
  apply NoDup_app. split; [done|]. split; [|apply NoDup_singleton].
  intros x Hx ->%list_elem_of_singleton. contradiction.
Qed.

Lemma foldl_dict_setitem keys (l : list string) :
  NoDup keys →
  NoDup (foldl dict_setitem keys l)
  ∧ ∀ k, k ∈ foldl dict_setitem keys l ↔ k ∈ keys ∨ k ∈ l.
Proof.
  revert keys. induction l as [|x l IH]; intros keys Hnd; cbn [foldl].
  - split; [done|]. intros k. split; [by left|]. by intros [?|?%elem_of_nil].
  - destruct (IH (dict_setitem keys x) (dict_setitem_NoDup _ _ Hnd)) as [Hnd' Hel].
    split; [done|]. intros k. rewrite Hel, dict_setitem_elem, elem_of_cons. tauto.
Qed.

(** The dict has each key once, and its keys are those of the mapping. *)
Lemma key_order_spec (ossheet : sheet) :
  NoDup (key_order ossheet)
  ∧ ∀ k, k ∈ key_order ossheet ↔ k ∈ all_keys ossheet.
Proof.
  unfold key_order, all_keys.
  destruct (foldl_dict_setitem [] (catalog ossheet) (NoDup_nil_2)) as [Hnd1 Hel1].
  destruct (foldl_dict_setitem _ extra_versions Hnd1) as [Hnd2 Hel2].
  split; [done|]. intros k. rewrite Hel2, Hel1, elem_of_app.
  split; [intros [[?%elem_of_nil|?]|?]; tauto|tauto].
Qed.

Lemma dict_items_keys keys oslist :
  (∀ k, k ∈ keys → is_Some (oslist !! k)) → (dict_items keys oslist).*1 = keys.
Proof.
  unfold dict_items. induction keys as [|k keys IH]; intros Hall; [done|].
  destruct (Hall k (list_elem_of_here _ _)) as [arr Hk]. simpl. rewrite Hk. simpl.
  f_equal. apply IH. intros k' Hk'. apply Hall. by apply list_elem_of_further.
Qed.

Lemma dict_items_elem keys oslist (item : string * series) :
  item ∈ dict_items keys oslist → oslist !! item.1 = Some item.2.
Proof.
  unfold dict_items. intros (k & _ & Hk)%list_elem_of_omap.
  destruct (oslist !! k) as [arr|] eqn:Hkk; [|discriminate].
  simpl in Hk. by injection Hk as <-.
Qed.

(** What [load_counts] hands to [plot_data]. *)
Lemma load_counts_items_Ok wb items :
  load_counts_items wb = Ok items →
  ∃ oslist ossheet dates,
    load_counts wb = Ok oslist
    ∧ sheet_by_name wb "OSVer" = Ok ossheet
    ∧ empty_dates (drop 3 (sheet_names wb)) = Ok dates
    ∧ items.*1 = key_order ossheet
    ∧ length items = size oslist
    ∧ ∀ item, item ∈ items →
        oslist !! item.1 = Some item.2 ∧ item.2.*1 = dates.*1.
Proof.
  unfold load_counts_items. intros H.
  apply bind_Ok in H as (oslist & Hload & H).
  apply bind_Ok in H as (ossheet & Hos & [= <-]).
  pose proof Hload as (dates & ossheet' & Hd & Hos' & Hdom & Hsh)%load_counts_shape.
  rewrite Hos in Hos'. injection Hos' as <-.
  destruct (key_order_spec ossheet) as [Hnd Hel].
  assert ((dict_items (key_order ossheet) oslist).*1 = key_order ossheet) as Hkeys.
  { apply dict_items_keys. intros k Hk. apply elem_of_dom.
    rewrite Hdom, elem_of_list_to_set. by apply Hel. }
  exists oslist, ossheet, dates.
  split; [done|]. split; [done|]. split; [done|]. split; [done|]. split.
  - rewrite <- (length_fmap fst), Hkeys.
    assert (size oslist = size (dom oslist)) as -> by (symmetry; apply size_dom).
    rewrite Hdom. rewrite <- (size_list_to_set (C := gset string)) by done.
    f_equal. apply set_eq. intros k. rewrite !elem_of_list_to_set. apply Hel.
  - intros item Hitem%dict_items_elem. split; [done|]. by eapply Hsh.
Qed.

Lemma load_counts_items_succeeds wb :
  succeeds (load_counts wb) → succeeds (load_counts_items wb).
Proof.
  intros [oslist Hload]. unfold load_counts_items. rewrite Hload. simpl.
  apply load_counts_shape in Hload as (_ & ossheet & _ & -> & _). by eexists.
Qed.

Lemma load_counts_items_Raise wb e :
  load_counts wb = Raise e → load_counts_items wb = Raise e.
Proof. unfold load_counts_items. by intros ->. Qed.

(** The dict of [load_counts] is never empty: the four derived keys are
    in it. *)
Lemma load_counts_items_last wb items :
  load_counts_items wb = Ok items → ∃ item, last items = Some item ∧ item ∈ items.
Proof.
  intros (oslist & ossheet & dates & _ & _ & _ & Hkeys & _)%load_counts_items_Ok.
  destruct (last items) as [item|] eqn:Hlast.
  - exists item. split; [done|]. by apply last_Some_elem_of.
  - apply last_None in Hlast. subst items.
    destruct (key_order_spec ossheet) as [_ Hel].
    assert ("1.x" ∈ key_order ossheet) as Hin
      by (apply Hel; unfold all_keys; apply elem_of_app; right; in_extra).
    rewrite <- Hkeys in Hin. by apply elem_of_nil in Hin.
Qed.

Lemma head_fst (arr : series) : head (arr.*1) = fst <$> head arr.
Proof. by destruct arr. Qed.

Lemma Forall2_head {A B} (P : A → B → Prop) (l : list A) (k : list B) (x : A) :
  Forall2 P l k → head l = Some x → ∃ y, head k = Some y ∧ P x y.
Proof. intros [|x' y l' k' Hxy _]; simpl; [done|]. intros [= <-]. eauto. Qed.

Lemma Forall2_last {A B} (P : A → B → Prop) (l : list A) (k : list B) (x : A) :
  Forall2 P l k → last l = Some x → ∃ y, last k = Some y ∧ P x y.
Proof.
  intros HF (l' & ->)%last_Some.
  apply Forall2_app_inv_l in HF as (k1 & k2 & _ & H2 & ->).
  apply Forall2_cons_inv_l in H2 as (y & k3 & Hxy & ->%Forall2_nil_inv_l & ->).
  exists y. split; [apply last_snoc|done].
Qed.

(** The x range of the charts, read off the sheet names. *)
Lemma charts_xlim wb items (special_versions : list string) :
  load_counts_items wb = Ok items →
  match head (drop 3 (sheet_names wb)), last (drop 3 (sheet_names wb)) with
  | Some n1, Some n2 =>
      ∃ d1 d2 fig1 fig2 fig3,
        get_date n1 = Ok d1 ∧ get_date n2 = Ok d2
        ∧ Plot.plot_data items special_versions = Plot.Shown fig1 fig2 fig3
        ∧ Plot.xlim fig1 = (d1, d2) ∧ Plot.xlim fig2 = (d1, d2)
        ∧ Plot.xlim fig3 = (d1, d2)
  | _, _ => Plot.plot_data items special_versions = Plot.Raised Plot.IndexError
  end.
Proof.
  intros Hitems.
  destruct (load_counts_items_last _ _ Hitems) as (item & Hlast & Hin).
  apply load_counts_items_Ok in Hitems
    as (oslist & ossheet & dates & _ & _ & Hd & _ & _ & Hall).
  destruct (Hall item Hin) as [_ Hcol]. apply empty_dates_Ok in Hd.
  pose proof (plot_data_last items special_versions) as Hplot. rewrite Hlast in Hplot.
  pose proof (head_fst item.2) as Hh. pose proof (fmap_last fst item.2) as Hl.
  rewrite Hcol in Hh, Hl. rewrite head_fst in Hh. rewrite fmap_last in Hl.
  destruct (head (drop 3 (sheet_names wb))) as [n1|] eqn:Hn1.
  - destruct (Forall2_head _ _ _ _ Hd Hn1) as (e1 & He1 & [Hg1 _]).
    destruct (last (drop 3 (sheet_names wb))) as [n2|] eqn:Hn2.
    + destruct (Forall2_last _ _ _ _ Hd Hn2) as (e2 & He2 & [Hg2 _]).
      rewrite He1 in Hh. rewrite He2 in Hl.
      destruct (head item.2) as [first|]; [|discriminate Hh].
      destruct (last item.2) as [final|]; [|discriminate Hl].
      simpl in Hh, Hl. injection Hh as Hh. injection Hl as Hl.
      destruct Hplot as (f1 & f2 & f3 & Hp & H1 & H2 & H3).
      exists e1.1, e2.1, f1, f2, f3. repeat split; congruence.
    + apply last_None in Hn2. rewrite Hn2 in Hn1. discriminate Hn1.
  - destruct (drop 3 (sheet_names wb)); [|discriminate Hn1].
    apply Forall2_nil_inv_l in Hd as ->. simpl in Hh.
    destruct (head item.2); [discriminate Hh|done].
Qed.

Lemma length_filter_fst items (P : string → Prop) (Q : string * series → Prop)
    {HP : ∀ k, Decision (P k)} {HQ : ∀ item, Decision (Q item)} :
  (∀ item, Q item ↔ P item.1) →
  length (filter Q items) = length (filter P (items.*1)).
Proof.
  intros Hiff. induction items as [|item items IH]; [done|].
  rewrite fmap_cons, !filter_cons.
  destruct (decide (Q item)) as [Hq|Hq], (decide (P item.1)) as [Hp|Hp];
    simpl; rewrite ?IH; try done; by apply Hiff in Hq || apply Hiff in Hp.
Qed.

(** In a list without repetition, the members of another such list that
    it contains are as many as that list has elements. *)
Lemma length_filter_group (l g : list string) :
  NoDup l → NoDup g → (∀ k, k ∈ g → k ∈ l) →
  length (filter (λ k, k ∈ g) l) = length g.
Proof.
  intros Hl Hg Hsub. apply Permutation_length, NoDup_Permutation; [|done|].
  - by apply NoDup_filter.
  - intros k. rewrite list_elem_of_filter. split; [tauto|]. intros Hk. split; auto.
Qed.

Lemma length_by_axis items :
  (length (filter (λ item, Plot.axis_of item.1 = Plot.ax1) items)
   + length (filter (λ item, Plot.axis_of item.1 = Plot.ax2) items)
   + length (filter (λ item, Plot.axis_of item.1 = Plot.ax3) items))%nat
  = length items.
Proof.
  induction items as [|item items IH]; [done|].
  rewrite !filter_cons. cbn [length]. rewrite <- IH.
  destruct (Plot.axis_of item.1);
    repeat (destruct (decide _) as [?|?]; try discriminate; try done);
    cbn [length]; lia.
Qed.

End script.

(** X15: for the dict of [load_counts], [plot_data] raises [IndexError]
    when the workbook has no date sheet; otherwise it shows the three
    charts over one x range, from the date of the first date sheet to the
    date of the last, whatever the highlight list. *)
Theorem charts_span_the_date_sheets (wb : workbook)
    (oslist : list (string * series)) (special_versions : list string) :
  load_counts_items wb = Ok oslist →
  match head (drop 3 (sheet_names wb)), last (drop 3 (sheet_names wb)) with
  | Some n1, Some n2 =>
      ∃ d1 d2 fig1 fig2 fig3,
        get_date n1 = Ok d1 ∧ get_date n2 = Ok d2
        ∧ Plot.plot_data oslist special_versions = Plot.Shown fig1 fig2 fig3
        ∧ Plot.xlim fig1 = (d1, d2) ∧ Plot.xlim fig2 = (d1, d2)
        ∧ Plot.xlim fig3 = (d1, d2)
  | _, _ => Plot.plot_data oslist special_versions = Plot.Raised Plot.IndexError
  end.
Proof. apply charts_xlim. Qed.

Lemma charts_span_the_date_sheets_witness :
  ∃ oslist d1 d2 fig1 fig2 fig3,
    load_counts_items wb_sample = Ok oslist
    ∧ get_date "20200101" = Ok d1 ∧ get_date "20200102" = Ok d2
    ∧ Plot.plot_data oslist SPECIAL_VERSIONS = Plot.Shown fig1 fig2 fig3
    ∧ Plot.xlim fig1 = (d1, d2) ∧ Plot.xlim fig2 = (d1, d2)
    ∧ Plot.xlim fig3 = (d1, d2).
Proof.
  run (load_counts_items wb_sample) o H. exists o.
  pose proof (charts_span_the_date_sheets wb_sample o SPECIAL_VERSIONS H) as Hx.
  change (head (drop 3 (sheet_names wb_sample))) with (Some "20200101") in Hx.
  change (last (drop 3 (sheet_names wb_sample))) with (Some "20200102") in Hx.
  destruct Hx as (d1 & d2 & f1 & f2 & f3 & Hx). exists d1, d2, f1, f2, f3.
  split; [exact H|exact Hx].
Defined.

(** X16: of the dict of [load_counts], the major-version chart gets two
    lines and the capability chart two, and the first chart the other
    keys, one line each: four fewer than the mapping has keys. *)
Theorem lines_per_chart (wb : workbook) (oslist : list (string * series))
    (special_versions : list string) (fig1 fig2 fig3 : Plot.figure) :
  load_counts_items wb = Ok oslist →
  Plot.plot_data oslist special_versions = Plot.Shown fig1 fig2 fig3 →
  length (Plot.lines fig2) = 2%nat
  ∧ length (Plot.lines fig3) = 2%nat
  ∧ (length (Plot.lines fig1) + 4)%nat = length oslist.
Proof.
  intros (m & ossheet & dates & _ & _ & _ & Hkeys & _)%load_counts_items_Ok Hplot.
  assert (∀ ax, length (filter (λ l, Plot.on l = ax)
                          (Plot.plotted (Plot.loop oslist special_versions)))
                = length (filter (λ item, Plot.axis_of item.1 = ax) oslist)) as Hlen.
  { intros ax. rewrite <- (length_fmap drawn). unfold Plot.loop.
    rewrite loop_drawn_from. cbn [Plot.plotted].
    by rewrite filter_nil, fmap_nil, app_nil_l, length_fmap. }
  unfold Plot.plot_data in Hplot. destruct (Plot.XLIM _); [discriminate|].
  injection Hplot as <- <- <-. unfold Plot.format_plot. cbn [Plot.lines].
  rewrite !Hlen. pose proof (length_by_axis oslist) as Hsum.
  destruct (key_order_spec ossheet) as [Hnd Hel].
  assert (∀ (ax : Plot.axes) (g : list string),
            (∀ k, Plot.axis_of k = ax ↔ k ∈ g) →
            NoDup g → (∀ k, k ∈ g → k ∈ extra_versions) →
            length (filter (λ item, Plot.axis_of item.1 = ax) oslist) = length g)
    as Hgroup.
  { intros ax g Hax Hg Hsub.
    etrans; [apply (length_filter_fst oslist (λ k, k ∈ g)
                      (λ item, Plot.axis_of item.1 = ax)
                      (HP := λ k, decide_rel (∈) k g));
             intros item; apply Hax|].
    rewrite Hkeys.
    apply length_filter_group; [done..|].
    intros k Hk. apply Hel. unfold all_keys. apply elem_of_app. right. auto. }
  assert (length (filter (λ item, Plot.axis_of item.1 = Plot.ax2) oslist) = 2%nat)
    as H2.
  { apply (Hgroup Plot.ax2 Plot.major_versions).
    - intros k. apply axis_of_cases.
    - unfold Plot.major_versions. apply NoDup_ListNoDup.
      repeat constructor; simpl; intuition discriminate.
    - unfold Plot.major_versions. intros k Hk.
      repeat (apply elem_of_cons in Hk as [->|Hk]; [in_extra|]).
      by apply elem_of_nil in Hk. }
  assert (length (filter (λ item, Plot.axis_of item.1 = Plot.ax3) oslist) = 2%nat)
    as H3.
  { apply (Hgroup Plot.ax3 Plot.mc_capability).
    - intros k. apply axis_of_cases.
    - unfold Plot.mc_capability. apply NoDup_ListNoDup.
      repeat constructor; simpl; intuition discriminate.
    - unfold Plot.mc_capability. intros k Hk.
      repeat (apply elem_of_cons in Hk as [->|Hk]; [in_extra|]).
      by apply elem_of_nil in Hk. }
  lia.
Qed.

Lemma lines_per_chart_witness :
  ∃ oslist fig1 fig2 fig3,
    load_counts_items wb_sample = Ok oslist
    ∧ Plot.plot_data oslist SPECIAL_VERSIONS = Plot.Shown fig1 fig2 fig3
    ∧ length (Plot.lines fig2) = 2%nat
    ∧ length (Plot.lines fig3) = 2%nat
    ∧ (length (Plot.lines fig1) + 4)%nat = length oslist.
Proof.
  run (load_counts_items wb_sample) o H.
  pose proof (charts_xlim wb_sample o SPECIAL_VERSIONS H) as Hx.
  change (head (drop 3 (sheet_names wb_sample))) with (Some "20200101") in Hx.
  change (last (drop 3 (sheet_names wb_sample))) with (Some "20200102") in Hx.
  destruct Hx as (d1 & d2 & f1 & f2 & f3 & _ & _ & Hp & _).
  exists o, f1, f2, f3. split; [exact H|]. split; [exact Hp|].
  exact (lines_per_chart wb_sample o SPECIAL_VERSIONS f1 f2 f3 H Hp).
Defined.

(** X17: the script exits with status 1 when it gets no file argument;
    for a workbook it can open, it ends with the exception of
    [load_counts] when that raises, with the [IndexError] of [plot_data]
    when the workbook has no date sheet, and it shows its charts exactly
    when [load_counts] returns and there is a date sheet. *)
Theorem main_ends (open_workbook : string → result workbook)
    (argv : list string) :
  ((length argv < 2)%nat → main open_workbook argv = Exit 1)
  ∧ ∀ prog file rest wb,
      argv = prog :: file :: rest → open_workbook file = Ok wb →
      (∀ e, load_counts wb = Raise e → main open_workbook argv = Uncaught e)
      ∧ (succeeds (load_counts wb) → drop 3 (sheet_names wb) = [] →
         main open_workbook argv = UncaughtPlot Plot.IndexError)
      ∧ ((∃ fig1 fig2 fig3, main open_workbook argv = Charts fig1 fig2 fig3)
         ↔ succeeds (load_counts wb) ∧ drop 3 (sheet_names wb) ≠ []).
Proof.
  split.
  - intros Hlen. unfold main. by rewrite bool_decide_eq_true_2.
  - intros prog file rest wb -> Hopen. unfold main.
    rewrite bool_decide_eq_false_2 by (simpl; lia). simpl. rewrite Hopen.
    split; [|split].
    + intros e He. by rewrite (load_counts_items_Raise _ _ He).
    + intros Hload Hnone. destruct (load_counts_items_succeeds _ Hload) as [items Hi].
      rewrite Hi. pose proof (charts_xlim wb items SPECIAL_VERSIONS Hi) as Hx.
      rewrite Hnone in Hx. simpl in Hx. by rewrite Hx.
    + split.
      * intros (f1 & f2 & f3 & Hmain).
        destruct (load_counts wb) as [m|e] eqn:Hload.
        2: { rewrite (load_counts_items_Raise _ _ Hload) in Hmain. discriminate. }
        split; [by eexists|]. intros Hnone.
        destruct (load_counts_items_succeeds wb) as [items Hi]; [by eexists|].
        rewrite Hi in Hmain.
        pose proof (charts_xlim wb items SPECIAL_VERSIONS Hi) as Hx.
        rewrite Hnone in Hx. simpl in Hx. rewrite Hx in Hmain. discriminate.
      * intros [Hload Hsome].
        destruct (load_counts_items_succeeds _ Hload) as [items Hi]. rewrite Hi.
        pose proof (charts_xlim wb items SPECIAL_VERSIONS Hi) as Hx.
        destruct (head (drop 3 (sheet_names wb))) as [n1|] eqn:Hn1.
        2: { destruct (drop 3 (sheet_names wb)); [done|discriminate]. }
        destruct (last (drop 3 (sheet_names wb))) as [n2|] eqn:Hn2.
        2: { by apply last_None in Hn2. }
        destruct Hx as (d1 & d2 & f1 & f2 & f3 & _ & _ & -> & _). by eauto.
Qed.

Lemma main_ends_witness :
  (∃ fig1 fig2 fig3,
     main (λ _, Ok wb_sample) ["versionplot.py"; "fleetscore.xls"]
     = Charts fig1 fig2 fig3)
  ∧ main (λ _, Ok wb_no_days) ["versionplot.py"; "fleetscore.xls"]
    = UncaughtPlot Plot.IndexError.
Proof.
  split.
  - destruct (main_ends (λ _, Ok wb_sample) ["versionplot.py"; "fleetscore.xls"])
      as [_ Hrun].
    destruct (Hrun "versionplot.py" "fleetscore.xls" [] wb_sample eq_refl eq_refl)
      as (_ & _ & Hiff).
    apply Hiff. split; [|discriminate].
    apply is_Ok_succeeds. vm_compute. reflexivity.
  - destruct (main_ends (λ _, Ok wb_no_days) ["versionplot.py"; "fleetscore.xls"])
      as [_ Hrun].
    destruct (Hrun "versionplot.py" "fleetscore.xls" [] wb_no_days eq_refl eq_refl)
      as (_ & Hnone & _).
    apply Hnone; [|reflexivity].
    apply is_Ok_succeeds. vm_compute. reflexivity.
Defined.
